(** * ocsputil: OCSP request building, transport, response checking, evaluation

    A shallow embedding of the Go package [software.sslmate.com/src/ocsputil]
    (lowlevel.go, the [CheckCert] wrappers, [Config] and [Evaluate]) and of
    the command [evalocsp], with the properties of them that the
    specification states and further ones read off the code.

    Conventions.
    - A Go function with several results is a function into the tuple of
      its results, the [error] result being [option error] ([None] is Go's
      [nil]).
    - A [[]byte] is [option (list byte)]: [None] is the nil slice, which is
      what JSON prints as [null].
    - Code that reads the clock or talks to the network runs in the monad
      [M], which threads a [World] (clock, log of the HTTP requests handed
      to a client) and can panic.
    - The collaborators (the X.509 decoder, the OCSP codec, the URL parser,
      the default HTTP client) are the fields of the class [Collaborators].
    - The pointers a caller passes in ([cert], [issuerCert], [httpClient],
      [ctx]) are taken to be non-nil and stand for what they point to; the
      pointers [ParseCertificate] returns are [option]s, and reading
      through a nil one panics. *)

From Stdlib Require Import ZArith Ascii String.
From stdpp Require Import base option list strings gmap.
From Equations Require Import Equations.

Open Scope string_scope.
Open Scope Z_scope.

(** ** Strings *)

(** [strings.HasPrefix(s, prefix)]: [s] begins with [prefix]. *)
Fixpoint HasPrefix (s prefix : string) {struct prefix} : bool :=
  match prefix, s with
  | EmptyString, _ => true
  | String p prefix', String c s' => Ascii.eqb c p && HasPrefix s' prefix'
  | String _ _, EmptyString => false
  end.

(** [strings.Contains(s, substr)]: [substr] occurs somewhere within [s]. *)
Fixpoint Contains (s substr : string) : bool :=
  HasPrefix s substr ||
  match s with
  | EmptyString => false
  | String _ s' => Contains s' substr
  end.

(** ** Errors *)

(** The dynamic types an [error] value has in this package.  The three
    sentinels are package variables made once by [errors.New] and compared
    by identity, so each is a constructor of its own; [errorString] is any
    other value made by [errors.New] or by [fmt.Errorf] without [%w] (also
    the errors the collaborators return); [wrapError] is what [fmt.Errorf]
    makes with [%w]: the formatted message and the wrapped error. *)
Inductive error : Type :=
  | ErrUnknown
  | ErrNoResponder
  | ErrNoCheck
  | errorString (s : string)
  | wrapError (msg : string) (err : error).

(** The [Error()] method. *)
Definition Error (e : error) : string :=
  match e with
  | ErrUnknown => "OCSP responder does not know this certificate"
  | ErrNoResponder => "Certificate does not contain an HTTP OCSP responder URL"
  | ErrNoCheck =>
      "Certificate is an OCSP responder certificate with the OCSP No Check extension"
  | errorString s => s
  | wrapError msg _ => msg
  end.

(** [fmt.Errorf(prefix + "%w", err)]. *)
Definition Errorf_w (prefix : string) (err : error) : error :=
  wrapError (prefix +:+ Error err) err.

(** [fmt.Errorf(prefix + "%s", arg)]. *)
Definition Errorf_s (prefix arg : string) : error :=
  errorString (prefix +:+ arg).

(** What a collaborator's [(value, error)] pair amounts to when the value
    is meaningful only without an error. *)
Inductive result (A : Type) : Type :=
  | Ok (a : A)
  | Fail (err : error).
Arguments Ok {A} a.
Arguments Fail {A} err.

(** ** Certificates (the fields of [x509.Certificate] the package reads) *)

Abbreviation bytes := (option (list Byte.byte)).

(** [x509.ExtKeyUsage], in the order of its [iota] declaration. *)
Inductive ExtKeyUsage : Type :=
  | ExtKeyUsageAny
  | ExtKeyUsageServerAuth
  | ExtKeyUsageClientAuth
  | ExtKeyUsageCodeSigning
  | ExtKeyUsageEmailProtection
  | ExtKeyUsageIPSECEndSystem
  | ExtKeyUsageIPSECTunnel
  | ExtKeyUsageIPSECUser
  | ExtKeyUsageTimeStamping
  | ExtKeyUsageOCSPSigning
  | ExtKeyUsageMicrosoftServerGatedCrypto
  | ExtKeyUsageNetscapeServerGatedCrypto
  | ExtKeyUsageMicrosoftCommercialCodeSigning
  | ExtKeyUsageMicrosoftKernelCodeSigning.

#[global] Instance ExtKeyUsage_eq_dec : EqDecision ExtKeyUsage.
Proof. solve_decision. Defined.

(** [asn1.ObjectIdentifier] is [[]int]. *)
Abbreviation ObjectIdentifier := (list Z).

(** [pkix.Extension]. *)
Record Extension : Type := mkExtension {
  Id : ObjectIdentifier;
  Critical : bool;
  Value : bytes
}.

(** The decoded public key; its content is never inspected here. *)
Inductive PublicKey : Type :=
  | DecodedKey (spki : list Byte.byte).

Record Certificate : Type := mkCertificate {
  Raw : bytes;
  RawSubject : bytes;
  RawSubjectPublicKeyInfo : bytes;
  Certificate_PublicKey : option PublicKey;
  OCSPServer : list string;
  Certificate_ExtKeyUsage : list ExtKeyUsage;
  Extensions : list Extension
}.

(** [ObjectIdentifier.Equal]. *)
Fixpoint ObjectIdentifier_Equal (oi other : ObjectIdentifier) : bool :=
  match oi, other with
  | [], [] => true
  | a :: oi', b :: other' => Z.eqb a b && ObjectIdentifier_Equal oi' other'
  | _, _ => false
  end.

Definition oidOCSPNoCheck : ObjectIdentifier := [1; 3; 6; 1; 5; 5; 7; 48; 1; 5].

(** lowlevel.go, [getOCSPServer]: the loop over [cert.OCSPServer]. *)
Fixpoint getOCSPServer_loop (servers : list string) : string :=
  match servers with
  | [] => ""
  | server :: rest =>
      if HasPrefix server "http://" then server else getOCSPServer_loop rest
  end.

Definition getOCSPServer (cert : Certificate) : string :=
  getOCSPServer_loop (OCSPServer cert).

(** lowlevel.go, [isOCSPResponderCert]. *)
Fixpoint isOCSPResponderCert_loop (ekus : list ExtKeyUsage) : bool :=
  match ekus with
  | [] => false
  | eku :: rest =>
      if bool_decide (eku = ExtKeyUsageOCSPSigning) then true
      else isOCSPResponderCert_loop rest
  end.

Definition isOCSPResponderCert (cert : Certificate) : bool :=
  isOCSPResponderCert_loop (Certificate_ExtKeyUsage cert).

(** lowlevel.go, [hasOCSPNoCheck]. *)
Fixpoint hasOCSPNoCheck_loop (exts : list Extension) : bool :=
  match exts with
  | [] => false
  | ext :: rest =>
      if ObjectIdentifier_Equal (Id ext) oidOCSPNoCheck then true
      else hasOCSPNoCheck_loop rest
  end.

Definition hasOCSPNoCheck (cert : Certificate) : bool :=
  hasOCSPNoCheck_loop (Extensions cert).

(** ** Time, contexts, HTTP messages *)

(** A [time.Time] is an instant counted in nanoseconds from the zero
    [Time]; a [time.Duration] is a number of nanoseconds. *)
Definition zeroTime : Z := 0.
Definition Second : Z := 1000000000.

(** lowlevel.go, [QueryTimeout]. *)
Definition QueryTimeout : Z := 10 * Second.

(** A [context.Context], as far as its deadline goes. *)
Record Context : Type := mkContext {
  Deadline : option Z
}.

(** [context.WithDeadline]: the deadline of the derived context is [d]
    unless the parent's is already earlier, in which case the parent's
    stays. *)
Definition context_WithDeadline (parent : Context) (d : Z) : Context :=
  match Deadline parent with
  | Some cur => if cur <? d then parent else mkContext (Some d)
  | None => mkContext (Some d)
  end.

(** [http.Header]: canonical key to list of values.  Every key this
    package uses is written in canonical form already. *)
Definition Header_Set (h : gmap string (list string)) (key value : string)
  : gmap string (list string) :=
  <[key := [value]]> h.

Definition Header_Get (h : gmap string (list string)) (key : string) : string :=
  match h !! key with
  | Some (v :: _) => v
  | _ => ""
  end.


Record Request : Type := mkRequest {
  Method : string;
  URL : string;
  Request_Header : gmap string (list string);
  Request_Body : bytes;
  Request_ctx : Context
}.

(** A response body: the bytes it yields and the error the reading ends
    with ([None] for a clean end of stream). *)
Record Reader : Type := mkReader {
  content : list Byte.byte;
  readErr : option error
}.

Record Response : Type := mkResponse {
  Status : string;
  StatusCode : Z;
  Response_Header : gmap string (list string);
  Response_Body : Reader
}.

(** [io.ReadAll] allocates its buffer before it reads: the slice it
    returns is never nil, also for an empty body. *)
Definition io_ReadAll (r : Reader) : bytes * option error :=
  (Some (content r), readErr r).

(** An [*http.Client], by what [Do] answers to a request at a given
    instant: the time the exchange takes, and the response or the error. *)
Definition Client : Type := Z -> Request -> Z * result Response.

(** [ocsp.Response], the fields read here; [Status] is an [int]. *)
Record ocsp_Response : Type := mkOcspResponse {
  ocsp_Status : Z;
  RevokedAt : Z
}.

Definition ocsp_Good : Z := 0.
Definition ocsp_Revoked : Z := 1.
Definition ocsp_Unknown : Z := 2.

(** ** The world and the monad *)

Record World : Type := mkWorld {
  clock : Z;
  sent : list Request   (* most recent first *)
}.

Inductive outcome (A : Type) : Type :=
  | Returns (a : A) (w : World)
  | Panics.
Arguments Returns {A} a w.
Arguments Panics {A}.

Definition M (A : Type) : Type := World -> outcome A.

Definition ret {A} (a : A) : M A := fun w => Returns a w.

Definition bind {A B} (m : M A) (k : A -> M B) : M B :=
  fun w =>
    match m w with
    | Returns a w' => k a w'
    | Panics => Panics
    end.

Notation "'do' x <- m ; k" := (bind m (fun x => k))
  (at level 10, x name, m at level 100, k at level 200).
Notation "'do' ' pat <- m ; k" := (bind m (fun x => match x with pat => k end))
  (at level 10, pat pattern, m at level 100, k at level 200).

(** Dereferencing a pointer: a nil one panics. *)
Definition deref {A} (p : option A) : M A :=
  match p with
  | Some a => ret a
  | None => fun _ => Panics
  end.

(** [time.Now()] and [time.Since(t)]. *)
Definition time_Now : M Z := fun w => Returns (clock w) w.
Definition time_Since (t : Z) : M Z := fun w => Returns (clock w - t) w.

(** [context.WithTimeout(parent, timeout)] is
    [WithDeadline(parent, time.Now().Add(timeout))]. *)
Definition context_WithTimeout (parent : Context) (timeout : Z) : M Context :=
  do now <- time_Now;
  ret (context_WithDeadline parent (now + timeout)).

(** [httpClient.Do(httpRequest)]: the request reaches the client, the
    clock advances by the time the exchange takes. *)
Definition Client_Do (httpClient : Client) (httpRequest : Request)
  : M (result Response) :=
  fun w =>
    let '(elapsed, r) := httpClient (clock w) httpRequest in
    Returns r (mkWorld (clock w + elapsed) (httpRequest :: sent w)).

(** ** Collaborators *)

Class Collaborators : Type := {
  (** [x509.ParseCertificate] *)
  x509_ParseCertificate : bytes -> result Certificate;
  (** [x509.ParsePKIXPublicKey] *)
  x509_ParsePKIXPublicKey : bytes -> result PublicKey;
  (** [ocsp.CreateRequest(cert, issuer, nil)], both results *)
  ocsp_CreateRequest : Certificate -> Certificate -> bytes * option error;
  (** [ocsp.ParseResponseForCert] *)
  ocsp_ParseResponseForCert :
    bytes -> Certificate -> Certificate -> result ocsp_Response;
  (** the URL parsing of [http.NewRequestWithContext]: the error, if any *)
  url_Parse : string -> option error;
  (** [http.DefaultClient] *)
  http_DefaultClient : Client
}.

(** [http.NewRequestWithContext(ctx, method, url, body)]: a request with
    an empty header, or the URL's parse error. *)
Definition http_NewRequestWithContext `{Collaborators}
    (ctx : Context) (method url : string) (body : bytes) : result Request :=
  match url_Parse url with
  | Some err => Fail err
  | None => Ok (mkRequest method url ∅ body ctx)
  end.

(** ** lowlevel.go *)

(** [ParseCertificate]: the named results [(cert, issuerCert, err)] as
    they stand at each [return]. *)
Definition ParseCertificate `{Collaborators}
    (certData issuerSubject issuerPubkeyBytes : bytes)
  : option Certificate * option Certificate * option error :=
  match x509_ParseCertificate certData with
  | Fail err =>
      (None, None, Some (Errorf_w "unable to parse certificate: " err))
  | Ok cert =>
      match x509_ParsePKIXPublicKey issuerPubkeyBytes with
      | Fail err =>
          (Some cert, None,
           Some (Errorf_w "unable to parse issuer public key: " err))
      | Ok issuerPubkey =>
          let issuerCert :=
            {| Raw := None;
               RawSubject := issuerSubject;
               RawSubjectPublicKeyInfo := issuerPubkeyBytes;
               Certificate_PublicKey := Some issuerPubkey;
               OCSPServer := [];
               Certificate_ExtKeyUsage := [];
               Extensions := [] |} in
          (Some cert, Some issuerCert, None)
      end
  end.

(** [CreateRequest]: the named results [(serverURL, requestBytes, err)]. *)
Definition CreateRequest `{Collaborators} (cert issuerCert : Certificate)
  : string * bytes * option error :=
  let serverURL := getOCSPServer cert in
  if String.eqb serverURL "" then (serverURL, None, Some ErrNoResponder)
  else if isOCSPResponderCert cert && hasOCSPNoCheck cert
  then (serverURL, None, Some ErrNoCheck)
  else
    let '(requestBytes, err) := ocsp_CreateRequest cert issuerCert in
    match err with
    | Some err =>
        (serverURL, requestBytes,
         Some (Errorf_w "error creating OCSP request: " err))
    | None => (serverURL, requestBytes, None)
    end.

Definition Request_setHeader (r : Request) (h : gmap string (list string))
  : Request :=
  mkRequest (Method r) (URL r) h (Request_Body r) (Request_ctx r).

(** [Query].  The deferred [cancel()] and [Body.Close()] release
    resources and do not bear on the results. *)
Definition Query `{Collaborators} (ctx : Context) (serverURL : string)
    (requestBytes : bytes) (httpClient : Client) : M (bytes * option error) :=
  do ctx <- context_WithTimeout ctx QueryTimeout;
  match http_NewRequestWithContext ctx "POST" serverURL requestBytes with
  | Fail err =>
      ret (None, Some (Errorf_w "error with OCSP responder URL: " err))
  | Ok httpRequest =>
      let httpRequest :=
        Request_setHeader httpRequest
          (Header_Set (Request_Header httpRequest)
             "Content-Type" "application/ocsp-request") in
      let httpRequest :=
        Request_setHeader httpRequest
          (<["Idempotency-Key" := []]> (Request_Header httpRequest)) in
      do r <- Client_Do httpClient httpRequest;
      match r with
      | Fail err =>
          ret (None,
               Some (Errorf_w "error querying OCSP responder over HTTP: " err))
      | Ok httpResponse =>
          let '(body, err) := io_ReadAll (Response_Body httpResponse) in
          match err with
          | Some err =>
              ret (None,
                   Some (Errorf_w
                           "error reading response from OCSP responder: " err))
          | None =>
              if negb (StatusCode httpResponse =? 200)
              then ret (None,
                        Some (Errorf_s "HTTP error from OCSP responder: "
                                (Status httpResponse)))
              else
                let contentType :=
                  Header_Get (Response_Header httpResponse) "Content-Type" in
                if negb (String.eqb contentType "application/ocsp-response")
                then ret (None,
                          Some (Errorf_s
                                  "HTTP response header has invalid Content-Type value "
                                  contentType))
                else ret (body, None)
          end
      end
  end.

(** [CheckResponse]: the named results [(revoked, revocationTime, err)]. *)
Definition CheckResponse `{Collaborators} (cert issuerCert : Certificate)
    (responseBytes : bytes) : bool * Z * option error :=
  match ocsp_ParseResponseForCert responseBytes cert issuerCert with
  | Fail err =>
      (false, zeroTime, Some (Errorf_w "error parsing OCSP response: " err))
  | Ok response =>
      if ocsp_Status response =? ocsp_Good then (false, zeroTime, None)
      else if ocsp_Status response =? ocsp_Revoked
      then (true, RevokedAt response, None)
      else (false, zeroTime, Some ErrUnknown)
  end.

(** ** The wrappers [CheckCert] and [CheckRawCert]

    Each [return] hands back the named results
    [(revoked, revocationTime, err)]; before [CheckResponse] is reached the
    first two still hold their zero values. *)

Definition CheckCert `{Collaborators} (ctx : Context)
    (cert issuerCert : Certificate) (httpClient : Client)
  : M (bool * Z * option error) :=
  let '(serverURL, requestBytes, err) := CreateRequest cert issuerCert in
  match err with
  | Some err => ret (false, zeroTime, Some err)
  | None =>
      do '(responseBytes, err) <- Query ctx serverURL requestBytes httpClient;
      match err with
      | Some err => ret (false, zeroTime, Some err)
      | None => ret (CheckResponse cert issuerCert responseBytes)
      end
  end.

Definition CheckRawCert `{Collaborators} (ctx : Context)
    (certData issuerSubject issuerPubkeyBytes : bytes) (httpClient : Client)
  : M (bool * Z * option error) :=
  let '(cert, issuerCert, err) :=
    ParseCertificate certData issuerSubject issuerPubkeyBytes in
  match err with
  | Some err => ret (false, zeroTime, Some err)
  | None =>
      do cert <- deref cert;
      do issuerCert <- deref issuerCert;
      CheckCert ctx cert issuerCert httpClient
  end.

(** ** [Config] *)

Record Config : Type := mkConfig {
  HTTPClient : option Client;
  UserAgent : string
}.

(** The method [httpClient] of [*Config]. *)
Definition Config_httpClient `{Collaborators} (config : option Config) : Client :=
  match config with
  | Some c =>
      match HTTPClient c with
      | Some client => client
      | None => http_DefaultClient
      end
  | None => http_DefaultClient
  end.

(** The method [userAgent] of [*Config]. *)
Definition Config_userAgent (config : option Config) : string :=
  match config with
  | Some c => UserAgent c
  | None => ""
  end.

(** ** [Evaluate] *)

Record Evaluation : Type := mkEvaluation {
  ResponderURL : option string;
  RequestBytes : bytes;
  ResponseBytes : bytes;
  ResponseTime : Z;
  Err : option error
}.

(** The zero [Evaluation], and the assignments to the fields of [eval]. *)
Definition Evaluation_zero : Evaluation := mkEvaluation None None None 0 None.

Definition set_ResponderURL (v : option string) (e : Evaluation) :=
  mkEvaluation v (RequestBytes e) (ResponseBytes e) (ResponseTime e) (Err e).
Definition set_RequestBytes (v : bytes) (e : Evaluation) :=
  mkEvaluation (ResponderURL e) v (ResponseBytes e) (ResponseTime e) (Err e).
Definition set_ResponseBytes (v : bytes) (e : Evaluation) :=
  mkEvaluation (ResponderURL e) (RequestBytes e) v (ResponseTime e) (Err e).
Definition set_ResponseTime (v : Z) (e : Evaluation) :=
  mkEvaluation (ResponderURL e) (RequestBytes e) (ResponseBytes e) v (Err e).
Definition set_Err (v : option error) (e : Evaluation) :=
  mkEvaluation (ResponderURL e) (RequestBytes e) (ResponseBytes e)
    (ResponseTime e) v.

(** [timedQuery].  The source hands [Query] the [*Config] itself
    (part_002:93), which the [Query] of lowlevel.go, declared with an
    [*http.Client], cannot take.  The model hands it the client that
    [config.httpClient()] selects; that call is the model's, not the
    source's, and [config.userAgent()] has no caller. *)
Definition timedQuery `{Collaborators} (ctx : Context) (serverURL : string)
    (requestBytes : bytes) (config : option Config)
  : M (bytes * Z * option error) :=
  do startTime <- time_Now;
  do '(responseBytes, err) <-
    Query ctx serverURL requestBytes (Config_httpClient config);
  do responseTime <- time_Since startTime;
  ret (responseBytes, responseTime, err).

(** [Evaluate].  [cert] and [issuerCert] are pointers; the model
    dereferences both before the first call that reads through one. *)
Definition Evaluate `{Collaborators} (ctx : Context)
    (certData issuerSubject issuerPubkey : bytes) (config : option Config)
  : M Evaluation :=
  let eval := Evaluation_zero in
  let '(cert, issuerCert, err) :=
    ParseCertificate certData issuerSubject issuerPubkey in
  match err with
  | Some err => ret (set_Err (Some err) eval)
  | None =>
      do cert <- deref cert;
      do issuerCert <- deref issuerCert;
      let '(serverURL, requestBytes, err) := CreateRequest cert issuerCert in
      match err with
      | Some err => ret (set_Err (Some err) eval)
      | None =>
          let eval := set_ResponderURL (Some serverURL) eval in
          let eval := set_RequestBytes requestBytes eval in
          do '(responseBytes, responseTime, err) <-
            timedQuery ctx serverURL requestBytes config;
          match err with
          | Some err => ret (set_Err (Some err) eval)
          | None =>
              let eval := set_ResponseBytes responseBytes eval in
              let eval := set_ResponseTime responseTime eval in
              match CheckResponse cert issuerCert responseBytes with
              | (_, _, Some err) => ret (set_Err (Some err) eval)
              | (_, _, None) => ret eval
              end
          end
      end
  end.

(** ** Concrete certificates, responders and collaborators

    Used to run the definitions above on explicit inputs. *)
Module Fixture.

Definition der (l : list Byte.byte) : bytes := Some l.

Definition certificate (servers : list string) (ekus : list ExtKeyUsage)
    (exts : list Extension) : Certificate :=
  {| Raw := der [Byte.x30; Byte.x82];
     RawSubject := der [Byte.x30; Byte.x0b];
     RawSubjectPublicKeyInfo := der [Byte.x30; Byte.x59];
     Certificate_PublicKey := Some (DecodedKey [Byte.x04]);
     OCSPServer := servers;
     Certificate_ExtKeyUsage := ekus;
     Extensions := exts |}.

(** A server certificate with an [https] and two [http] responders. *)
Definition leaf : Certificate :=
  certificate
    ["https://ocsp.example.com"; "http://ocsp.example.com";
     "http://ocsp2.example.com"]
    [ExtKeyUsageServerAuth; ExtKeyUsageClientAuth] [].

(** A server certificate whose only responder is an [https] one. *)
Definition httpsOnly : Certificate :=
  certificate ["https://ocsp.example.com"; "ldap://dir.example.com"]
    [ExtKeyUsageServerAuth] [].

Definition noCheck : Extension :=
  mkExtension oidOCSPNoCheck false (der [Byte.x05; Byte.x00]).

(** An OCSP responder certificate with OCSP-No-Check and no responder. *)
Definition responderNoURL : Certificate :=
  certificate [] [ExtKeyUsageOCSPSigning] [noCheck].

(** The same with a responder. *)
Definition responderWithURL : Certificate :=
  certificate ["http://ocsp.example.com"]
    [ExtKeyUsageServerAuth; ExtKeyUsageOCSPSigning]
    [mkExtension [2; 5; 29; 15] true (der [Byte.x03]); noCheck].

Definition issuer : Certificate :=
  certificate [] [] [].

Definition ocspHeader (contentType : string) : gmap string (list string) :=
  <["Content-Type" := [contentType]]> ∅.

Definition answer (status : string) (code : Z) (contentType : string)
    (body : list Byte.byte) : Response :=
  mkResponse status code (ocspHeader contentType) (mkReader body None).

Definition ok200 : Response :=
  answer "200 OK" 200 "application/ocsp-response" [Byte.x30; Byte.x03].

Definition error500 : Response :=
  answer "500 Internal Server Error" 500 "text/html" [].

Definition unavailable503 : Response :=
  answer "503 Service Unavailable" 503 "text/plain" [].

Definition plain200 : Response :=
  answer "200 OK" 200 "text/plain" [Byte.x6f; Byte.x6b].

(** A 503 answer whose body breaks off while it is read. *)
Definition truncated503 : Response :=
  mkResponse "503 Service Unavailable" 503 (ocspHeader "text/plain")
    (mkReader [] (Some (errorString "unexpected EOF"))).

(** A 500 answer whose body breaks off while it is read. *)
Definition truncated500 : Response :=
  mkResponse "500 Internal Server Error" 500 (ocspHeader "text/html")
    (mkReader [] (Some (errorString "unexpected EOF"))).



(** A client whose every exchange takes 120ms and yields [r]. *)
Definition responder (r : Response) : Client :=
  fun _ _ => (120000000, Ok r).

(** Collaborators that decode every input to [cert], encode a two-byte
    request, and read every response as [response]. *)
Definition collaborators (cert : Certificate) (response : ocsp_Response)
    (defaultClient : Client) : Collaborators :=
  {| x509_ParseCertificate := fun _ => Ok cert;
     x509_ParsePKIXPublicKey := fun _ => Ok (DecodedKey [Byte.x04]);
     ocsp_CreateRequest := fun _ _ => (der [Byte.x30; Byte.x00], None);
     ocsp_ParseResponseForCert := fun _ _ _ => Ok response;
     url_Parse := fun _ => None;
     http_DefaultClient := defaultClient |}.

Definition good : ocsp_Response := mkOcspResponse ocsp_Good zeroTime.
Definition unknown : ocsp_Response := mkOcspResponse ocsp_Unknown zeroTime.
Definition revokedAt (t : Z) : ocsp_Response := mkOcspResponse ocsp_Revoked t.

Definition background : Context := mkContext None.
Definition start : World := mkWorld 1000 [].

End Fixture.

(** ** The command [evalocsp] (cmd/evalocsp/main.go) *)

(** [pem.Block]. *)
Record pem_Block : Type := mkBlock {
  Block_Type : string;
  Headers : gmap string string;
  Block_Bytes : bytes
}.

(** The elements of a byte slice; a nil slice has none. *)
Definition elements (b : bytes) : list Byte.byte :=
  match b with
  | Some l => l
  | None => []
  end.

(** [errString]. *)
Definition errString (err : option error) : option string :=
  match err with
  | Some err => Some (Error err)
  | None => None
  end.

(** What [main] hands to the JSON encoder, key by key. *)
Record Output : Type := mkOutput {
  responder_url : option string;
  request_bytes : bytes;
  response_bytes : bytes;
  response_time : string;
  error_text : option string   (* the key "error" *)
}.

(** How [main] ends: [log.Fatalf] with a message, or the encoding of an
    output. *)
Inductive ending : Type :=
  | Fatal (message : string)
  | Encoded (output : Output).

Section evalocsp.

Context `{Collaborators}.

(** [pem.Decode(data)]: the first block found, if any, and the rest of the
    input.  The rest is a proper suffix of the input; it is given by the
    number of bytes, beyond the first, that lie before it. *)
Variable pem_Decode : list Byte.byte -> option (pem_Block * nat).

(** The method [String] of [time.Duration]. *)
Variable Duration_String : Z -> string.

(** The loop of [readChain], from its test [len(inBytes) > 0].  A nil
    slice of certificates is the empty list. *)
Equations? readChain_loop (inBytes : list Byte.byte) (certs : list Certificate)
  : list Certificate * option error by wf (length inBytes) lt :=
  readChain_loop [] certs := (certs, None);
  readChain_loop (b :: tl) certs with pem_Decode (b :: tl) => {
    | None := ([], Some (errorString "invalid PEM"));
    | Some (block, before_rest)
        with String.eqb (Block_Type block) "CERTIFICATE" => {
        | true with x509_ParseCertificate (Block_Bytes block) => {
            | Fail err := ([], Some err);
            | Ok cert := readChain_loop (drop before_rest tl) (certs ++ [cert]) };
        | false := readChain_loop (drop before_rest tl) certs } }.
Proof.
  all: rewrite length_drop; cbn; lia.
Qed.

(** [readChain]. *)
Definition readChain (input : Reader) : list Certificate * option error :=
  let '(inBytes, err) := io_ReadAll input in
  match err with
  | Some err => ([], Some err)
  | None => readChain_loop (elements inBytes) []
  end.

(** Indexing a slice: out of range panics. *)
Definition index {A} (l : list A) (i : nat) : M A :=
  match l !! i with
  | Some a => ret a
  | None => fun _ => Panics
  end.

(** [main], from the standard input to what is encoded on the standard
    output. *)
Definition main (stdin : Reader) : M ending :=
  let '(chain, err) := readChain stdin in
  match err with
  | Some err =>
      ret (Fatal ("Error reading certificate chain from stdin: "
                  +:+ Error err))
  | None =>
      if (length chain <? 2)%nat
      then ret (Fatal "Fewer than 2 certificates provided on stdin")
      else
        do chain0 <- index chain 0;
        do chain1 <- index chain 1;
        let certData := Raw chain0 in
        let issuerSubject := RawSubject chain1 in
        let issuerPubkey := RawSubjectPublicKeyInfo chain1 in
        do eval <- Evaluate (mkContext None) certData issuerSubject
                     issuerPubkey None;
        ret (Encoded
               {| responder_url := ResponderURL eval;
                  request_bytes := RequestBytes eval;
                  response_bytes := ResponseBytes eval;
                  response_time := Duration_String (ResponseTime eval);
                  error_text := errString (Err eval) |})
  end.

End evalocsp.

(** A decoder for runs: a byte 2d opens a block of type CERTIFICATE, a
    byte 23 a block of type X509 CRL, each one byte long; nothing else is
    a block. *)
Module Sample.

Definition decode (data : list Byte.byte) : option (pem_Block * nat) :=
  match data with
  | Byte.x2d :: _ =>
      Some (mkBlock "CERTIFICATE" ∅ (Some [Byte.x30; Byte.x82]), 0%nat)
  | Byte.x23 :: _ => Some (mkBlock "X509 CRL" ∅ (Some [Byte.x30]), 0%nat)
  | _ => None
  end.

Definition encode (block : pem_Block) : list Byte.byte :=
  if String.eqb (Block_Type block) "CERTIFICATE" then [Byte.x2d] else [Byte.x23].

Definition seconds (d : Z) : string :=
  if d =? 120000000 then "120ms" else "0s".

End Sample.

(** * Properties *)

(** ** Strings *)

Lemma Contains_HasPrefix (s sub : string) :
  HasPrefix s sub = true -> Contains s sub = true.
Proof. intros Hp. destruct s; simpl in *; rewrite Hp; reflexivity. Qed.

Lemma Contains_app_r (pre s sub : string) :
  Contains s sub = true -> Contains (pre +:+ s) sub = true.
Proof.
  intros Hc. induction pre as [|c pre IH]; simpl.
  - exact Hc.
  - rewrite IH. apply orb_true_r.
Qed.

Lemma HasPrefix_nonempty (s : string) : HasPrefix s "http://" = true -> s <> "".
Proof. intros Hp ->. discriminate Hp. Qed.

(** ** Object identifiers *)

Lemma ObjectIdentifier_Equal_refl (oi : ObjectIdentifier) :
  ObjectIdentifier_Equal oi oi = true.
Proof.
  induction oi as [|a oi IH]; simpl; [reflexivity|].
  rewrite Z.eqb_refl. exact IH.
Qed.

Lemma ObjectIdentifier_Equal_eq (oi other : ObjectIdentifier) :
  ObjectIdentifier_Equal oi other = true <-> oi = other.
Proof.
  split.
  - revert other. induction oi as [|a oi IH]; intros [|b other] Heq;
      simpl in Heq; try discriminate; [reflexivity|].
    apply andb_prop in Heq as [Hab Hrest].
    apply Z.eqb_eq in Hab. subst b. f_equal. apply IH, Hrest.
  - intros ->. apply ObjectIdentifier_Equal_refl.
Qed.

(** ** The three scans of the certificate *)

Lemma getOCSPServer_loop_none (servers : list string) :
  Forall (fun s => HasPrefix s "http://" = false) servers ->
  getOCSPServer_loop servers = "".
Proof.
  induction 1 as [|s rest Hs _ IH]; cbn [getOCSPServer_loop]; [reflexivity|].
  rewrite Hs. exact IH.
Qed.

Lemma getOCSPServer_loop_first (before after : list string) (server : string) :
  Forall (fun s => HasPrefix s "http://" = false) before ->
  HasPrefix server "http://" = true ->
  getOCSPServer_loop (before ++ server :: after)%list = server.
Proof.
  intros Hbefore Hserver.
  induction Hbefore as [|s rest Hs _ IH]; cbn [getOCSPServer_loop app].
  - rewrite Hserver. reflexivity.
  - rewrite Hs. exact IH.
Qed.

Lemma getOCSPServer_loop_some (servers : list string) (server : string) :
  In server servers -> HasPrefix server "http://" = true ->
  getOCSPServer_loop servers <> "".
Proof.
  induction servers as [|s rest IH]; cbn [getOCSPServer_loop In]; [tauto|].
  intros [-> | Hin] Hp.
  - rewrite Hp. apply HasPrefix_nonempty, Hp.
  - destruct (HasPrefix s "http://") eqn:Hs.
    + apply HasPrefix_nonempty, Hs.
    + apply IH; assumption.
Qed.

Lemma isOCSPResponderCert_loop_In (ekus : list ExtKeyUsage) :
  isOCSPResponderCert_loop ekus = true <-> In ExtKeyUsageOCSPSigning ekus.
Proof.
  induction ekus as [|eku rest IH]; simpl.
  - split; [discriminate | tauto].
  - case_bool_decide as Heq.
    + split; [intros _; left; exact Heq | reflexivity].
    + rewrite IH. split; [tauto | intros [Hl | Hr]; [contradiction | exact Hr]].
Qed.

Lemma hasOCSPNoCheck_loop_In (exts : list Extension) :
  hasOCSPNoCheck_loop exts = true <->
  exists ext, In ext exts /\ Id ext = oidOCSPNoCheck.
Proof.
  induction exts as [|ext rest IH]; simpl.
  - split; [discriminate | intros (? & [] & _)].
  - destruct (ObjectIdentifier_Equal (Id ext) oidOCSPNoCheck) eqn:Heq.
    + split; [|reflexivity]. intros _. exists ext. split; [left; reflexivity|].
      apply ObjectIdentifier_Equal_eq, Heq.
    + rewrite IH. split.
      * intros (e & Hin & He). exists e. tauto.
      * intros (e & [-> | Hin] & He).
        -- rewrite He, ObjectIdentifier_Equal_refl in Heq. discriminate.
        -- exists e. tauto.
Qed.

(** ** [CreateRequest] *)

Section CreateRequest_properties.

Context `{Collaborators}.

(** What [CreateRequest] returns when the certificate has no [http://]
    responder. *)
Lemma CreateRequest_no_responder (cert issuerCert : Certificate) :
  Forall (fun s => HasPrefix s "http://" = false) (OCSPServer cert) ->
  CreateRequest cert issuerCert = ("", None, Some ErrNoResponder).
Proof.
  intros Hnone. unfold CreateRequest, getOCSPServer.
  rewrite (getOCSPServer_loop_none _ Hnone). reflexivity.
Qed.

(** The first result of [CreateRequest] is always [getOCSPServer cert],
    and past the first test the error is not [ErrNoResponder]. *)
Lemma CreateRequest_serverURL (cert issuerCert : Certificate) :
  getOCSPServer cert <> "" ->
  exists requestBytes err,
    CreateRequest cert issuerCert = (getOCSPServer cert, requestBytes, err) /\
    err <> Some ErrNoResponder.
Proof.
  intros Hurl. unfold CreateRequest.
  destruct (String.eqb_spec (getOCSPServer cert) "") as [Heq | _];
    [contradiction|].
  destruct (isOCSPResponderCert cert && hasOCSPNoCheck cert).
  - eexists _, _. split; [reflexivity | discriminate].
  - destruct (ocsp_CreateRequest cert issuerCert) as [requestBytes [err|]];
      eexists _, _; (split; [reflexivity | discriminate]).
Qed.

(** C6. A certificate whose OCSP responder list has no entry beginning with
    [http://] makes [CreateRequest] fail with [ErrNoResponder]; when the
    list has such an entry, the responder URL [CreateRequest] returns is
    the first of them (and the error, if any, is not [ErrNoResponder]). *)
Theorem CreateRequest_first_http_responder (cert issuerCert : Certificate) :
  (Forall (fun s => HasPrefix s "http://" = false) (OCSPServer cert) ->
   CreateRequest cert issuerCert = ("", None, Some ErrNoResponder)) /\
  (forall (before after : list string) (server : string),
     OCSPServer cert = (before ++ server :: after)%list ->
     Forall (fun s => HasPrefix s "http://" = false) before ->
     HasPrefix server "http://" = true ->
     exists requestBytes err,
       CreateRequest cert issuerCert = (server, requestBytes, err) /\
       err <> Some ErrNoResponder).
Proof.
  split.
  - apply CreateRequest_no_responder.
  - intros before after server Hlist Hbefore Hserver.
    assert (Hget : getOCSPServer cert = server).
    { unfold getOCSPServer. rewrite Hlist.
      apply getOCSPServer_loop_first; assumption. }
    rewrite <- Hget. apply CreateRequest_serverURL.
    rewrite Hget. apply HasPrefix_nonempty, Hserver.
Qed.

(** C2, as the code has it. For a certificate whose extended key usage
    includes OCSP signing and that carries the OCSP-No-Check extension,
    [CreateRequest] fails with [ErrNoCheck] when the certificate has an
    [http://] responder, and with [ErrNoResponder] when it has none: the
    responder is looked for first. *)
Theorem CreateRequest_NoCheck_after_responder (cert issuerCert : Certificate) :
  In ExtKeyUsageOCSPSigning (Certificate_ExtKeyUsage cert) ->
  (exists ext, In ext (Extensions cert) /\ Id ext = oidOCSPNoCheck) ->
  ((exists server,
      In server (OCSPServer cert) /\ HasPrefix server "http://" = true) ->
   CreateRequest cert issuerCert =
     (getOCSPServer cert, None, Some ErrNoCheck)) /\
  (Forall (fun s => HasPrefix s "http://" = false) (OCSPServer cert) ->
   CreateRequest cert issuerCert = ("", None, Some ErrNoResponder)).
Proof.
  intros Heku Hext. split.
  - intros (server & Hin & Hp). unfold CreateRequest.
    destruct (String.eqb_spec (getOCSPServer cert) "") as [Heq | _].
    + exfalso. revert Heq. unfold getOCSPServer.
      apply (getOCSPServer_loop_some _ server); assumption.
    + unfold isOCSPResponderCert, hasOCSPNoCheck.
      rewrite (proj2 (isOCSPResponderCert_loop_In _) Heku).
      rewrite (proj2 (hasOCSPNoCheck_loop_In _) Hext). reflexivity.
  - apply CreateRequest_no_responder.
Qed.

End CreateRequest_properties.

(** Witness of C6: the [https]-only certificate, and the certificate whose
    second responder is the first [http] one. *)
Lemma CreateRequest_first_http_responder_witness :
  @CreateRequest (Fixture.collaborators Fixture.leaf Fixture.good
                    (Fixture.responder Fixture.ok200))
     Fixture.httpsOnly Fixture.issuer = ("", None, Some ErrNoResponder) /\
  exists requestBytes err,
    @CreateRequest (Fixture.collaborators Fixture.leaf Fixture.good
                      (Fixture.responder Fixture.ok200))
       Fixture.leaf Fixture.issuer
    = ("http://ocsp.example.com", requestBytes, err) /\
    err <> Some ErrNoResponder.
Proof.
  split.
  - apply CreateRequest_first_http_responder.
    repeat constructor.
  - apply (proj2 (CreateRequest_first_http_responder Fixture.leaf Fixture.issuer)
             ["https://ocsp.example.com"] ["http://ocsp2.example.com"]
             "http://ocsp.example.com").
    + reflexivity.
    + repeat constructor.
    + reflexivity.
Defined.

(** C2 as stated fails: an OCSP responder certificate with OCSP-No-Check
    and no responder URI gets [ErrNoResponder], not [ErrNoCheck]. *)
Lemma CreateRequest_NoCheck_without_responder :
  In ExtKeyUsageOCSPSigning (Certificate_ExtKeyUsage Fixture.responderNoURL) /\
  (exists ext,
     In ext (Extensions Fixture.responderNoURL) /\ Id ext = oidOCSPNoCheck) /\
  @CreateRequest (Fixture.collaborators Fixture.leaf Fixture.good
                    (Fixture.responder Fixture.ok200))
     Fixture.responderNoURL Fixture.issuer = ("", None, Some ErrNoResponder) /\
  ErrNoResponder <> ErrNoCheck.
Proof.
  split; [left; reflexivity|].
  split; [exists Fixture.noCheck; split; [left|]; reflexivity|].
  split; [reflexivity | discriminate].
Qed.

(** Witness of C2 as amended: the responder certificate with a URI. *)
Lemma CreateRequest_NoCheck_after_responder_witness :
  @CreateRequest (Fixture.collaborators Fixture.leaf Fixture.good
                    (Fixture.responder Fixture.ok200))
     Fixture.responderWithURL Fixture.issuer
  = ("http://ocsp.example.com", None, Some ErrNoCheck).
Proof.
  apply (CreateRequest_NoCheck_after_responder
           Fixture.responderWithURL Fixture.issuer).
  - right; left; reflexivity.
  - exists Fixture.noCheck. split; [right; left|]; reflexivity.
  - exists "http://ocsp.example.com". split; [left|]; reflexivity.
Defined.

(** ** Running [Query] *)

Section Query_properties.

Context `{Collaborators}.

(** One run of [Query], spelled out: no request when the URL does not
    parse, else exactly one, and the results read off the client's
    answer. *)
Lemma Query_run (ctx : Context) (serverURL : string) (requestBytes : bytes)
    (httpClient : Client) (w : World) :
  Query ctx serverURL requestBytes httpClient w =
  match url_Parse serverURL with
  | Some err =>
      Returns (None, Some (Errorf_w "error with OCSP responder URL: " err)) w
  | None =>
      let httpRequest :=
        mkRequest "POST" serverURL
          (<["Idempotency-Key" := []]>
             (<["Content-Type" := ["application/ocsp-request"]]> ∅))
          requestBytes
          (context_WithDeadline ctx (clock w + QueryTimeout)) in
      Returns
        match snd (httpClient (clock w) httpRequest) with
        | Fail err =>
            (None,
             Some (Errorf_w "error querying OCSP responder over HTTP: " err))
        | Ok httpResponse =>
            match readErr (Response_Body httpResponse) with
            | Some err =>
                (None,
                 Some (Errorf_w
                         "error reading response from OCSP responder: " err))
            | None =>
                if negb (StatusCode httpResponse =? 200)
                then (None,
                      Some (Errorf_s "HTTP error from OCSP responder: "
                              (Status httpResponse)))
                else if negb (String.eqb
                                (Header_Get (Response_Header httpResponse)
                                   "Content-Type")
                                "application/ocsp-response")
                then (None,
                      Some (Errorf_s
                              "HTTP response header has invalid Content-Type value "
                              (Header_Get (Response_Header httpResponse)
                                 "Content-Type")))
                else (Some (content (Response_Body httpResponse)), None)
            end
        end
        (mkWorld (clock w + fst (httpClient (clock w) httpRequest))
           (httpRequest :: sent w))
  end.
Proof.
  unfold Query, bind, context_WithTimeout, bind, time_Now, ret,
    http_NewRequestWithContext.
  destruct (url_Parse serverURL) as [err|]; [reflexivity|].
  cbn [Request_setHeader Request_Header Method URL Request_Body Request_ctx
       Header_Set].
  unfold Client_Do.
  destruct (httpClient _ _) as [elapsed [httpResponse | err]];
    cbn [fst snd]; [|reflexivity].
  unfold io_ReadAll.
  destruct (readErr (Response_Body httpResponse)); [reflexivity|].
  destruct (negb (StatusCode httpResponse =? 200)); [reflexivity|].
  destruct (negb (String.eqb _ _)); reflexivity.
Qed.

(** [Query] returns, whatever the client does. *)
Lemma Query_returns (ctx : Context) (serverURL : string)
    (requestBytes : bytes) (httpClient : Client) (w : World) :
  exists body err w',
    Query ctx serverURL requestBytes httpClient w = Returns (body, err) w'.
Proof.
  rewrite Query_run. destruct (url_Parse serverURL).
  - eexists _, _, _. reflexivity.
  - cbv zeta. match goal with |- context [Returns ?r ?w'] =>
      destruct r as [body err] eqn:Hr end.
    eexists _, _, _. reflexivity.
Qed.

End Query_properties.

(** ** [CheckResponse], [CheckCert], [CheckRawCert] *)

Section Check_properties.

Context `{Collaborators}.

(** The four ways [CheckResponse] ends. *)
Lemma CheckResponse_cases (cert issuerCert : Certificate) (responseBytes : bytes) :
  (exists err, CheckResponse cert issuerCert responseBytes
               = (false, zeroTime, Some err)) \/
  CheckResponse cert issuerCert responseBytes = (false, zeroTime, None) \/
  (exists response,
     ocsp_ParseResponseForCert responseBytes cert issuerCert = Ok response /\
     ocsp_Status response = ocsp_Revoked /\
     CheckResponse cert issuerCert responseBytes
     = (true, RevokedAt response, None)).
Proof.
  unfold CheckResponse.
  destruct (ocsp_ParseResponseForCert responseBytes cert issuerCert)
    as [response | err]; [|left; eexists; reflexivity].
  destruct (Z.eqb_spec (ocsp_Status response) ocsp_Good);
    [right; left; reflexivity|].
  destruct (Z.eqb_spec (ocsp_Status response) ocsp_Revoked).
  - right; right. exists response. auto.
  - left; eexists; reflexivity.
Qed.

(** A successful [ParseCertificate] yields both pointers. *)
Lemma ParseCertificate_ok (certData issuerSubject issuerPubkeyBytes : bytes)
    (cert issuerCert : option Certificate) :
  ParseCertificate certData issuerSubject issuerPubkeyBytes
  = (cert, issuerCert, None) ->
  exists c i, cert = Some c /\ issuerCert = Some i.
Proof.
  unfold ParseCertificate.
  destruct (x509_ParseCertificate certData); [|discriminate].
  destruct (x509_ParsePKIXPublicKey issuerPubkeyBytes); [|discriminate].
  intros [= <- <-]. eexists _, _. split; reflexivity.
Qed.

(** [CheckCert] returns; its results are either an error with the zero
    verdict, or the results of [CheckResponse] on what [Query] returned. *)
Lemma CheckCert_cases (ctx : Context) (cert issuerCert : Certificate)
    (httpClient : Client) (w : World) :
  exists res w',
    CheckCert ctx cert issuerCert httpClient w = Returns res w' /\
    ((exists err, res = (false, zeroTime, Some err)) \/
     (exists responseBytes,
        res = CheckResponse cert issuerCert responseBytes)).
Proof.
  unfold CheckCert.
  destruct (CreateRequest cert issuerCert) as [[serverURL requestBytes] [err|]].
  - eexists _, _. split; [reflexivity|]. left. eexists; reflexivity.
  - unfold bind.
    destruct (Query_returns ctx serverURL requestBytes httpClient w)
      as (body & err & w' & ->).
    destruct err as [err|]; eexists _, _; (split; [reflexivity|]).
    + left. eexists; reflexivity.
    + right. eexists; reflexivity.
Qed.

(** The same for [CheckRawCert], which never dereferences a nil pointer. *)
Lemma CheckRawCert_cases (ctx : Context)
    (certData issuerSubject issuerPubkeyBytes : bytes)
    (httpClient : Client) (w : World) :
  exists res w',
    CheckRawCert ctx certData issuerSubject issuerPubkeyBytes httpClient w
    = Returns res w' /\
    ((exists err, res = (false, zeroTime, Some err)) \/
     (exists cert issuerCert responseBytes,
        res = CheckResponse cert issuerCert responseBytes)).
Proof.
  unfold CheckRawCert.
  destruct (ParseCertificate certData issuerSubject issuerPubkeyBytes)
    as [[cert issuerCert] [err|]] eqn:Hparse.
  - eexists _, _. split; [reflexivity|]. left. eexists; reflexivity.
  - destruct (ParseCertificate_ok _ _ _ _ _ Hparse) as (c & i & -> & ->).
    unfold bind, deref, ret.
    destruct (CheckCert_cases ctx c i httpClient w)
      as (res & w' & -> & [Herr | (responseBytes & Hres)]).
    + eexists _, _. split; [reflexivity|]. left. exact Herr.
    + eexists _, _. split; [reflexivity|]. right. eauto.
Qed.

(** An error from [CheckResponse] comes with the zero verdict. *)
Lemma CheckResponse_error_zero (cert issuerCert : Certificate)
    (responseBytes : bytes) (revoked : bool) (revocationTime : Z) (err : error) :
  CheckResponse cert issuerCert responseBytes
  = (revoked, revocationTime, Some err) ->
  revoked = false /\ revocationTime = zeroTime.
Proof.
  destruct (CheckResponse_cases cert issuerCert responseBytes)
    as [(e & ->) | [-> | (response & _ & _ & ->)]];
    intros [= <- <-]; split; reflexivity.
Qed.

(** A result of [CheckResponse] without error: not revoked goes with the
    zero time. *)
Lemma CheckResponse_good_zero (cert issuerCert : Certificate)
    (responseBytes : bytes) (revocationTime : Z) (err : option error) :
  CheckResponse cert issuerCert responseBytes
  = (false, revocationTime, err) ->
  revocationTime = zeroTime.
Proof.
  destruct (CheckResponse_cases cert issuerCert responseBytes)
    as [(e & ->) | [-> | (response & _ & _ & ->)]];
    intros [= <-]; reflexivity.
Qed.

(** C10. An error from [CheckResponse] comes with [revoked = false] and the
    zero revocation time; [CheckCert] returns the results of [CheckResponse]
    as they are when the earlier stages succeed, and [CheckRawCert] those of
    [CheckCert]; so each of the three returns, and none returns an error
    together with a verdict or a timestamp. *)
Theorem error_excludes_verdict :
  (forall cert issuerCert responseBytes revoked revocationTime err,
     CheckResponse cert issuerCert responseBytes
     = (revoked, revocationTime, Some err) ->
     revoked = false /\ revocationTime = zeroTime) /\
  (forall ctx cert issuerCert httpClient w,
     (forall serverURL requestBytes responseBytes w',
        CreateRequest cert issuerCert = (serverURL, requestBytes, None) ->
        Query ctx serverURL requestBytes httpClient w
        = Returns (responseBytes, None) w' ->
        CheckCert ctx cert issuerCert httpClient w
        = Returns (CheckResponse cert issuerCert responseBytes) w') /\
     exists revoked revocationTime err w',
       CheckCert ctx cert issuerCert httpClient w
       = Returns (revoked, revocationTime, err) w' /\
       (err <> None -> revoked = false /\ revocationTime = zeroTime)) /\
  (forall ctx certData issuerSubject issuerPubkeyBytes httpClient w,
     (forall cert issuerCert,
        ParseCertificate certData issuerSubject issuerPubkeyBytes
        = (Some cert, Some issuerCert, None) ->
        CheckRawCert ctx certData issuerSubject issuerPubkeyBytes httpClient w
        = CheckCert ctx cert issuerCert httpClient w) /\
     exists revoked revocationTime err w',
       CheckRawCert ctx certData issuerSubject issuerPubkeyBytes httpClient w
       = Returns (revoked, revocationTime, err) w' /\
       (err <> None -> revoked = false /\ revocationTime = zeroTime)).
Proof.
  split; [|split].
  - apply CheckResponse_error_zero.
  - intros ctx cert issuerCert httpClient w. split.
    + intros serverURL requestBytes responseBytes w' Hreq Hquery.
      unfold CheckCert. rewrite Hreq. unfold bind. rewrite Hquery.
      reflexivity.
    + destruct (CheckCert_cases ctx cert issuerCert httpClient w)
        as (res & w' & Hrun & [(err & ->) | (responseBytes & Hres)]).
      * eexists _, _, _, _. split; [exact Hrun|]. intros _. split; reflexivity.
      * destruct res as [[revoked t] err]. exists revoked, t, err, w'.
        split; [exact Hrun|]. destruct err as [err|]; [|congruence].
        intros _. symmetry in Hres.
        apply (CheckResponse_error_zero _ _ _ _ _ _ Hres).
  - intros ctx certData issuerSubject issuerPubkeyBytes httpClient w. split.
    + intros cert issuerCert Hparse. unfold CheckRawCert. rewrite Hparse.
      reflexivity.
    + destruct (CheckRawCert_cases ctx certData issuerSubject
                  issuerPubkeyBytes httpClient w)
        as (res & w' & Hrun &
            [(err & ->) | (cert & issuerCert & responseBytes & Hres)]).
      * eexists _, _, _, _. split; [exact Hrun|]. intros _. split; reflexivity.
      * destruct res as [[revoked t] err]. exists revoked, t, err, w'.
        split; [exact Hrun|]. destruct err as [err|]; [|congruence].
        intros _. symmetry in Hres.
        apply (CheckResponse_error_zero _ _ _ _ _ _ Hres).
Qed.

End Check_properties.

Section Verdict_properties.

Context `{Collaborators}.

(** C4, as the code has it. When [CheckResponse] returns without error (and
    so when [CheckCert] does), [revoked = false] implies the zero
    revocation time, hence a non-zero revocation time implies
    [revoked = true]; and when [revoked = true] the time returned is the
    [RevokedAt] of the parsed response, whatever it is. *)
Theorem verdict_and_revocation_time :
  (forall cert issuerCert responseBytes revoked revocationTime,
     CheckResponse cert issuerCert responseBytes
     = (revoked, revocationTime, None) ->
     (revoked = false -> revocationTime = zeroTime) /\
     (revocationTime <> zeroTime -> revoked = true) /\
     (revoked = true ->
      exists response,
        ocsp_ParseResponseForCert responseBytes cert issuerCert = Ok response /\
        ocsp_Status response = ocsp_Revoked /\
        revocationTime = RevokedAt response)) /\
  (forall ctx cert issuerCert httpClient w revoked revocationTime w',
     CheckCert ctx cert issuerCert httpClient w
     = Returns (revoked, revocationTime, None) w' ->
     (revoked = false -> revocationTime = zeroTime) /\
     (revocationTime <> zeroTime -> revoked = true)).
Proof.
  split.
  - intros cert issuerCert responseBytes revoked revocationTime Hres.
    destruct (CheckResponse_cases cert issuerCert responseBytes)
      as [(e & Hc) | [Hc | (response & Hparse & Hstatus & Hc)]];
      rewrite Hc in Hres; try discriminate.
    + injection Hres as <- <-. repeat split; try congruence.
    + injection Hres as <- <-. split; [discriminate|]. split; [reflexivity|].
      intros _. exists response. auto.
  - intros ctx cert issuerCert httpClient w revoked revocationTime w' Hrun.
    destruct (CheckCert_cases ctx cert issuerCert httpClient w)
      as (res & w1 & Hrun' & [(err & ->) | (responseBytes & Hres)]);
      rewrite Hrun' in Hrun; injection Hrun as -> ->; [discriminate|].
    assert (Hzero : revoked = false -> revocationTime = zeroTime).
    { intros ->. symmetry in Hres.
      apply (CheckResponse_good_zero _ _ _ _ _ Hres). }
    split; [exact Hzero|]. intros Hne.
    destruct revoked; [reflexivity|]. elim Hne. auto.
Qed.

End Verdict_properties.

(** C4 as stated fails: a response the codec reads as revoked at the zero
    time gives [revoked = true] together with the zero revocation time. *)
Lemma CheckResponse_revoked_at_zero_time :
  @CheckResponse (Fixture.collaborators Fixture.leaf
                    (Fixture.revokedAt zeroTime)
                    (Fixture.responder Fixture.ok200))
     Fixture.leaf Fixture.issuer (Fixture.der [Byte.x30; Byte.x03])
  = (true, zeroTime, None) /\
  ~ (true = true <-> zeroTime <> zeroTime).
Proof.
  split; [reflexivity|]. intros [Hnonzero _]. apply Hnonzero; reflexivity.
Qed.

(** Witness of C4 as amended: a response revoked at instant 1700000000. *)
Lemma verdict_and_revocation_time_witness :
  @CheckResponse (Fixture.collaborators Fixture.leaf
                    (Fixture.revokedAt 1700000000)
                    (Fixture.responder Fixture.ok200))
     Fixture.leaf Fixture.issuer (Fixture.der [Byte.x30; Byte.x03])
  = (true, 1700000000, None) /\
  (1700000000 <> zeroTime -> true = true).
Proof.
  split; [reflexivity|].
  apply (proj1 (@verdict_and_revocation_time
                  (Fixture.collaborators Fixture.leaf
                     (Fixture.revokedAt 1700000000)
                     (Fixture.responder Fixture.ok200)))
           Fixture.leaf Fixture.issuer (Fixture.der [Byte.x30; Byte.x03])
           true 1700000000).
  reflexivity.
Defined.

(** Witness of C10: the codec reads the response as unknown. *)
Lemma error_excludes_verdict_witness :
  @CheckResponse (Fixture.collaborators Fixture.leaf Fixture.unknown
                    (Fixture.responder Fixture.ok200))
     Fixture.leaf Fixture.issuer (Fixture.der [Byte.x30; Byte.x03])
  = (false, zeroTime, Some ErrUnknown) /\
  (false = false /\ zeroTime = zeroTime) /\
  @CheckCert (Fixture.collaborators Fixture.leaf Fixture.unknown
                (Fixture.responder Fixture.ok200))
     Fixture.background Fixture.leaf Fixture.issuer
     (Fixture.responder Fixture.ok200) Fixture.start
  = Returns (false, zeroTime, Some ErrUnknown)
      (mkWorld 120001000
         [mkRequest "POST" "http://ocsp.example.com"
            (<["Idempotency-Key" := []]>
               (<["Content-Type" := ["application/ocsp-request"]]> ∅))
            (Fixture.der [Byte.x30; Byte.x00])
            (mkContext (Some 10000001000))]).
Proof.
  split; [reflexivity|]. split.
  - apply (proj1 (@error_excludes_verdict
                    (Fixture.collaborators Fixture.leaf Fixture.unknown
                       (Fixture.responder Fixture.ok200)))
             Fixture.leaf Fixture.issuer (Fixture.der [Byte.x30; Byte.x03])
             false zeroTime ErrUnknown).
    reflexivity.
  - apply (proj1 (proj1 (proj2 (@error_excludes_verdict
                    (Fixture.collaborators Fixture.leaf Fixture.unknown
                       (Fixture.responder Fixture.ok200))))
             Fixture.background Fixture.leaf Fixture.issuer
             (Fixture.responder Fixture.ok200) Fixture.start)
             "http://ocsp.example.com" (Fixture.der [Byte.x30; Byte.x00])
             (Fixture.der [Byte.x30; Byte.x03])).
    + reflexivity.
    + vm_compute. reflexivity.
Defined.

(** ** Deadlines *)


(** ** What [Query] sends and what it makes of the answer *)

Section Transport_properties.

Context `{Collaborators}.

(** The run of [Query] against a responder that answers the POSTs to
    [serverURL] with [httpResponse], whose body reads to its end. *)
Lemma Query_answered (ctx : Context) (serverURL : string)
    (requestBytes : bytes) (httpClient : Client) (w : World)
    (elapsed : Z) (httpResponse : Response) :
  url_Parse serverURL = None ->
  (forall rq, Method rq = "POST" -> URL rq = serverURL ->
              httpClient (clock w) rq = (elapsed, Ok httpResponse)) ->
  readErr (Response_Body httpResponse) = None ->
  exists w',
    clock w' = clock w + elapsed /\
    Query ctx serverURL requestBytes httpClient w =
    Returns
      (if negb (StatusCode httpResponse =? 200)
       then (None,
             Some (Errorf_s "HTTP error from OCSP responder: "
                     (Status httpResponse)))
       else if negb (String.eqb
                       (Header_Get (Response_Header httpResponse)
                          "Content-Type")
                       "application/ocsp-response")
       then (None,
             Some (Errorf_s
                     "HTTP response header has invalid Content-Type value "
                     (Header_Get (Response_Header httpResponse)
                        "Content-Type")))
       else (Some (content (Response_Body httpResponse)), None))
      w'.
Proof.
  intros Hurl Hanswer Hbody. rewrite Query_run, Hurl. cbv zeta.
  match goal with |- context [httpClient (clock w) ?rq] =>
    rewrite (Hanswer rq eq_refl eq_refl) end.
  cbn [fst snd]. rewrite Hbody.
  eexists. split; [|reflexivity]. reflexivity.
Qed.

(** C3, as the code has it. Let the responder answer with a response
    whose body reads to its end. If the status code is not 200, [Query]
    fails with the error "HTTP error from OCSP responder: " followed by the
    response's status text, whatever the Content-Type; for status 503 with
    a status text that begins with "503", the error contains "503". If the
    status code is 200 and the Content-Type is not
    "application/ocsp-response", [Query] fails with the invalid-Content-Type
    error. *)
Theorem Query_status_before_content_type (ctx : Context) (serverURL : string)
    (requestBytes : bytes) (httpClient : Client) (w : World)
    (elapsed : Z) (httpResponse : Response) :
  url_Parse serverURL = None ->
  (forall rq, Method rq = "POST" -> URL rq = serverURL ->
              httpClient (clock w) rq = (elapsed, Ok httpResponse)) ->
  readErr (Response_Body httpResponse) = None ->
  exists w',
    (StatusCode httpResponse <> 200 ->
     Query ctx serverURL requestBytes httpClient w
     = Returns
         (None,
          Some (errorString ("HTTP error from OCSP responder: "
                             +:+ Status httpResponse))) w') /\
    (StatusCode httpResponse = 503 ->
     HasPrefix (Status httpResponse) "503" = true ->
     exists err,
       Query ctx serverURL requestBytes httpClient w
       = Returns (None, Some err) w' /\
       Contains (Error err) "503" = true) /\
    (StatusCode httpResponse = 200 ->
     Header_Get (Response_Header httpResponse) "Content-Type"
     <> "application/ocsp-response" ->
     Query ctx serverURL requestBytes httpClient w
     = Returns
         (None,
          Some (errorString
                  ("HTTP response header has invalid Content-Type value "
                   +:+ Header_Get (Response_Header httpResponse)
                         "Content-Type"))) w').
Proof.
  intros Hurl Hanswer Hbody.
  destruct (Query_answered ctx serverURL requestBytes httpClient w elapsed
              httpResponse Hurl Hanswer Hbody) as (w' & _ & Hrun).
  exists w'. rewrite Hrun. clear Hrun. split; [|split].
  - intros Hcode. destruct (Z.eqb_spec (StatusCode httpResponse) 200);
      [contradiction | reflexivity].
  - intros Hcode Hstatus. rewrite Hcode. cbn [Z.eqb Pos.eqb negb].
    eexists. split; [reflexivity|].
    cbn [Error Errorf_s]. apply Contains_app_r, Contains_HasPrefix, Hstatus.
  - intros Hcode Htype. rewrite Hcode. cbn [Z.eqb Pos.eqb negb].
    destruct (String.eqb_spec
                (Header_Get (Response_Header httpResponse) "Content-Type")
                "application/ocsp-response"); [contradiction | reflexivity].
Qed.


(** The headers of the request [Query] sends: the Content-Type, the empty
    Idempotency-Key, and nothing else. *)
Lemma Query_request_header (ctx : Context) (serverURL : string)
    (requestBytes : bytes) (httpClient : Client) (w : World) :
  exists res w',
    Query ctx serverURL requestBytes httpClient w = Returns res w' /\
    (w' = w \/
     exists rq,
       sent w' = rq :: sent w /\
       Method rq = "POST" /\
       Request_Header rq !! "Content-Type"
       = Some ["application/ocsp-request"] /\
       Request_Header rq !! "Idempotency-Key" = Some [] /\
       forall key,
         key <> "Content-Type" -> key <> "Idempotency-Key" ->
         Request_Header rq !! key = None).
Proof.
  rewrite Query_run. destruct (url_Parse serverURL) as [err|].
  - eexists _, _. split; [reflexivity|]. left; reflexivity.
  - cbv zeta. eexists _, _. split; [reflexivity|]. right.
    eexists. split; [reflexivity|]. cbn [Request_Header Method].
    split; [reflexivity|]. split; [|split].
    + rewrite lookup_insert_ne by discriminate. apply lookup_insert_eq.
    + apply lookup_insert_eq.
    + intros key Hct Hik.
      rewrite lookup_insert_ne by congruence.
      rewrite lookup_insert_ne by congruence.
      apply lookup_empty.
Qed.

End Transport_properties.



(** C3 as stated fails: a 503 answer of Content-Type text/plain makes
    [Query] fail with the HTTP error, not the invalid-Content-Type one; and
    a 503 answer whose body breaks off makes it fail with the read error,
    whose text has no "503". *)
Lemma Query_503_text_plain :
  StatusCode Fixture.unavailable503 = 503 /\
  Header_Get (Response_Header Fixture.unavailable503) "Content-Type"
  = "text/plain" /\
  (exists w',
     @Query (Fixture.collaborators Fixture.leaf Fixture.good
               (Fixture.responder Fixture.ok200))
        Fixture.background "http://ocsp.example.com"
        (Fixture.der [Byte.x30; Byte.x00])
        (Fixture.responder Fixture.unavailable503) Fixture.start
     = Returns
         (None,
          Some (errorString
                  "HTTP error from OCSP responder: 503 Service Unavailable"))
         w') /\
  errorString "HTTP error from OCSP responder: 503 Service Unavailable"
  <> errorString
       ("HTTP response header has invalid Content-Type value " +:+ "text/plain") /\
  StatusCode Fixture.truncated503 = 503 /\
  (exists w' err,
     @Query (Fixture.collaborators Fixture.leaf Fixture.good
               (Fixture.responder Fixture.ok200))
        Fixture.background "http://ocsp.example.com"
        (Fixture.der [Byte.x30; Byte.x00])
        (Fixture.responder Fixture.truncated503) Fixture.start
     = Returns (None, Some err) w' /\
     Error err = "error reading response from OCSP responder: unexpected EOF" /\
     Contains (Error err) "503" = false).
Proof.
  split; [reflexivity|]. split; [reflexivity|]. split; [|split; [|split]].
  - eexists. vm_compute. reflexivity.
  - discriminate.
  - reflexivity.
  - eexists _, _. split; [vm_compute; reflexivity|].
    split; reflexivity.
Qed.

(** Witness of C3 as amended: the 503 answer, and a 200 answer of
    Content-Type text/plain. *)
Lemma Query_status_before_content_type_witness :
  (exists w' err,
     @Query (Fixture.collaborators Fixture.leaf Fixture.good
               (Fixture.responder Fixture.ok200))
        Fixture.background "http://ocsp.example.com"
        (Fixture.der [Byte.x30; Byte.x00])
        (Fixture.responder Fixture.unavailable503) Fixture.start
     = Returns (None, Some err) w' /\
     Contains (Error err) "503" = true) /\
  (exists w',
     @Query (Fixture.collaborators Fixture.leaf Fixture.good
               (Fixture.responder Fixture.ok200))
        Fixture.background "http://ocsp.example.com"
        (Fixture.der [Byte.x30; Byte.x00])
        (Fixture.responder Fixture.plain200) Fixture.start
     = Returns
         (None,
          Some (errorString
                  "HTTP response header has invalid Content-Type value text/plain"))
         w').
Proof.
  split.
  - destruct (@Query_status_before_content_type
                (Fixture.collaborators Fixture.leaf Fixture.good
                   (Fixture.responder Fixture.ok200))
                Fixture.background "http://ocsp.example.com"
                (Fixture.der [Byte.x30; Byte.x00])
                (Fixture.responder Fixture.unavailable503) Fixture.start
                120000000 Fixture.unavailable503)
      as (w' & _ & H503 & _).
    + reflexivity.
    + intros rq _ _. reflexivity.
    + reflexivity.
    + exists w'. apply H503; reflexivity.
  - destruct (@Query_status_before_content_type
                (Fixture.collaborators Fixture.leaf Fixture.good
                   (Fixture.responder Fixture.ok200))
                Fixture.background "http://ocsp.example.com"
                (Fixture.der [Byte.x30; Byte.x00])
                (Fixture.responder Fixture.plain200) Fixture.start
                120000000 Fixture.plain200)
      as (w' & _ & _ & Htype).
    + reflexivity.
    + intros rq _ _. reflexivity.
    + reflexivity.
    + exists w'. apply Htype; [reflexivity|]. vm_compute. discriminate.
Defined.

(** ** [Evaluate] *)

Section Evaluate_properties.

Context `{Collaborators}.

(** A [Query] without error returns a non-nil body. *)
Lemma Query_ok_body (ctx : Context) (serverURL : string)
    (requestBytes : bytes) (httpClient : Client) (w w' : World) (body : bytes) :
  Query ctx serverURL requestBytes httpClient w = Returns (body, None) w' ->
  body <> None.
Proof.
  rewrite Query_run. destruct (url_Parse serverURL); [discriminate|].
  cbv zeta. destruct (snd (httpClient _ _)) as [httpResponse | err];
    [|discriminate].
  destruct (readErr (Response_Body httpResponse)); [discriminate|].
  destruct (negb (StatusCode httpResponse =? 200)); [discriminate|].
  destruct (negb (String.eqb _ _)); [discriminate|].
  intros [= <- _]. discriminate.
Qed.

(** A [Query] with an error returns the nil slice. *)
Lemma Query_error_body (ctx : Context) (serverURL : string)
    (requestBytes : bytes) (httpClient : Client) (w w' : World)
    (body : bytes) (err : error) :
  Query ctx serverURL requestBytes httpClient w = Returns (body, Some err) w' ->
  body = None.
Proof.
  rewrite Query_run. destruct (url_Parse serverURL); [congruence|].
  cbv zeta. destruct (snd (httpClient _ _)) as [httpResponse | e];
    [|congruence].
  destruct (readErr (Response_Body httpResponse)); [congruence|].
  destruct (negb (StatusCode httpResponse =? 200)); [congruence|].
  destruct (negb (String.eqb _ _)); [congruence|].
  discriminate.
Qed.

(** [CreateRequest] without error returns the codec's bytes. *)
Lemma CreateRequest_ok_bytes (cert issuerCert : Certificate)
    (serverURL : string) (requestBytes : bytes) :
  CreateRequest cert issuerCert = (serverURL, requestBytes, None) ->
  ocsp_CreateRequest cert issuerCert = (requestBytes, None).
Proof.
  unfold CreateRequest.
  destruct (String.eqb _ _); [discriminate|].
  destruct (_ && _); [discriminate|].
  destruct (ocsp_CreateRequest cert issuerCert) as [rb [err|]];
    [discriminate|].
  intros [= _ <-]. reflexivity.
Qed.

(** The five ways [Evaluate] ends, one per stage that can fail and one
    for success; [Evaluate] returns in each. *)
Lemma Evaluate_cases (ctx : Context)
    (certData issuerSubject issuerPubkey : bytes) (config : option Config)
    (w : World) :
  exists eval w',
    Evaluate ctx certData issuerSubject issuerPubkey config w
    = Returns eval w' /\
    ((exists cert issuerCert err,
        ParseCertificate certData issuerSubject issuerPubkey
        = (cert, issuerCert, Some err) /\
        eval = mkEvaluation None None None 0 (Some err) /\ w' = w) \/
     (exists cert issuerCert,
        ParseCertificate certData issuerSubject issuerPubkey
        = (Some cert, Some issuerCert, None) /\
        ((exists serverURL requestBytes err,
            CreateRequest cert issuerCert
            = (serverURL, requestBytes, Some err) /\
            eval = mkEvaluation None None None 0 (Some err) /\ w' = w) \/
         (exists serverURL requestBytes,
            CreateRequest cert issuerCert = (serverURL, requestBytes, None) /\
            ((exists body err,
                Query ctx serverURL requestBytes (Config_httpClient config) w
                = Returns (body, Some err) w' /\
                eval = mkEvaluation (Some serverURL) requestBytes None 0
                         (Some err)) \/
             (exists body,
                Query ctx serverURL requestBytes (Config_httpClient config) w
                = Returns (body, None) w' /\
                ((exists revoked revocationTime err,
                    CheckResponse cert issuerCert body
                    = (revoked, revocationTime, Some err) /\
                    eval = mkEvaluation (Some serverURL) requestBytes body
                             (clock w' - clock w) (Some err)) \/
                 (exists revoked revocationTime,
                    CheckResponse cert issuerCert body
                    = (revoked, revocationTime, None) /\
                    eval = mkEvaluation (Some serverURL) requestBytes body
                             (clock w' - clock w) None)))))))).
Proof.
  unfold Evaluate.
  destruct (ParseCertificate certData issuerSubject issuerPubkey)
    as [[cert issuerCert] [err|]] eqn:Hparse.
  { eexists _, _. split; [reflexivity|]. left.
    eexists _, _, _. repeat split. }
  destruct (ParseCertificate_ok _ _ _ _ _ Hparse) as (c & i & -> & ->).
  unfold bind at 1 2. unfold deref, ret at 1 2.
  destruct (CreateRequest c i) as [[serverURL requestBytes] [err|]] eqn:Hreq.
  { eexists _, _. split; [reflexivity|]. right.
    exists c, i. split; [reflexivity|]. left.
    eexists _, _, _. split; [exact Hreq|]. split; reflexivity. }
  unfold bind, timedQuery, bind, time_Now, time_Since, ret.
  destruct (Query_returns ctx serverURL requestBytes
              (Config_httpClient config) w) as (body & err & w' & Hquery).
  rewrite Hquery.
  destruct err as [err|].
  { eexists _, _. split; [reflexivity|]. right.
    exists c, i. split; [reflexivity|]. right.
    exists serverURL, requestBytes. split; [exact Hreq|]. left.
    exists body, err. split; [exact Hquery | reflexivity]. }
  destruct (CheckResponse c i body) as [[revoked t] [err|]] eqn:Hcheck.
  - eexists _, _. split; [reflexivity|]. right.
    exists c, i. split; [reflexivity|]. right.
    exists serverURL, requestBytes. split; [exact Hreq|]. right.
    exists body. split; [exact Hquery|]. left.
    exists revoked, t, err. split; [exact Hcheck | reflexivity].
  - eexists _, _. split; [reflexivity|]. right.
    exists c, i. split; [reflexivity|]. right.
    exists serverURL, requestBytes. split; [exact Hreq|]. right.
    exists body. split; [exact Hquery|]. right.
    exists revoked, t. split; [exact Hcheck | reflexivity].
Qed.

End Evaluate_properties.

Section Evaluate_claims.

Context `{Collaborators}.

(** C8. [Evaluate] returns an [Evaluation] on every input: it neither
    panics nor has an error result. The [Err] it returns is the error of
    the first stage that fails, and the stages after that one do not run:
    a failure of [ParseCertificate] or of [CreateRequest] leaves every
    other field zero and the world as it was (no request is sent), a
    failure of [Query] leaves the response fields zero, and without any
    failure [Err] is nil. *)
Theorem Evaluate_captures_first_error (ctx : Context)
    (certData issuerSubject issuerPubkey : bytes) (config : option Config)
    (w : World) :
  exists eval w',
    Evaluate ctx certData issuerSubject issuerPubkey config w
    = Returns eval w' /\
    (forall cert issuerCert err,
       ParseCertificate certData issuerSubject issuerPubkey
       = (cert, issuerCert, Some err) ->
       eval = mkEvaluation None None None 0 (Some err) /\ w' = w) /\
    (forall cert issuerCert,
       ParseCertificate certData issuerSubject issuerPubkey
       = (Some cert, Some issuerCert, None) ->
       (forall serverURL requestBytes err,
          CreateRequest cert issuerCert = (serverURL, requestBytes, Some err) ->
          eval = mkEvaluation None None None 0 (Some err) /\ w' = w) /\
       (forall serverURL requestBytes,
          CreateRequest cert issuerCert = (serverURL, requestBytes, None) ->
          exists body queryErr,
            Query ctx serverURL requestBytes (Config_httpClient config) w
            = Returns (body, queryErr) w' /\
            (forall err,
               queryErr = Some err ->
               eval = mkEvaluation (Some serverURL) requestBytes None 0
                        (Some err)) /\
            (queryErr = None ->
             forall revoked revocationTime checkErr,
               CheckResponse cert issuerCert body
               = (revoked, revocationTime, checkErr) ->
               eval = mkEvaluation (Some serverURL) requestBytes body
                        (clock w' - clock w) checkErr))).
Proof.
  destruct (Evaluate_cases ctx certData issuerSubject issuerPubkey config w)
    as (eval & w' & Hrun & Hcases).
  exists eval, w'. split; [exact Hrun|]. split.
  - intros cert issuerCert err Hparse.
    destruct Hcases as [(c & i & e & Hp & -> & ->) | (c & i & Hp & _)];
      [|congruence].
    split; congruence.
  - intros cert issuerCert Hparse.
    destruct Hcases as [(c & i & e & Hp & _) | (c & i & Hp & Hcases)];
      [congruence|].
    assert (c = cert) as -> by congruence.
    assert (i = issuerCert) as -> by congruence.
    split.
    + intros serverURL requestBytes err Hreq.
      destruct Hcases as [(u & rb & e & Hr & -> & ->) | (u & rb & Hr & _)];
        [|congruence].
      split; congruence.
    + intros serverURL requestBytes Hreq.
      destruct Hcases as [(u & rb & e & Hr & _) | (u & rb & Hr & Hcases)];
        [congruence|].
      assert (u = serverURL) as -> by congruence.
      assert (rb = requestBytes) as -> by congruence.
      destruct Hcases as [(body & e & Hq & ->) | (body & Hq & Hcases)].
      * exists body, (Some e). split; [exact Hq|].
        split; [congruence | discriminate].
      * exists body, None. split; [exact Hq|]. split; [discriminate|].
        intros _ revoked t checkErr Hcheck.
        destruct Hcases as [(r & t' & e & Hc & ->) | (r & t' & Hc & ->)];
          congruence.
Qed.

(** C1, as the code has it. Provided the codec returns non-nil request
    bytes when it returns no error, an [Evaluation] whose [Err] is nil has
    non-nil [ResponderURL], [RequestBytes] and [ResponseBytes]. *)
Theorem Evaluate_no_error_fields_set (ctx : Context)
    (certData issuerSubject issuerPubkey : bytes) (config : option Config)
    (w : World) :
  (forall cert issuerCert requestBytes,
     ocsp_CreateRequest cert issuerCert = (requestBytes, None) ->
     requestBytes <> None) ->
  exists eval w',
    Evaluate ctx certData issuerSubject issuerPubkey config w
    = Returns eval w' /\
    (Err eval = None ->
     ResponderURL eval <> None /\
     RequestBytes eval <> None /\
     ResponseBytes eval <> None).
Proof.
  intros Hcodec.
  destruct (Evaluate_cases ctx certData issuerSubject issuerPubkey config w)
    as (eval & w' & Hrun & Hcases).
  exists eval, w'. split; [exact Hrun|]. intros Herr.
  destruct Hcases as [(c & i & e & _ & -> & _) | (c & i & _ & Hcases)];
    [discriminate|].
  destruct Hcases as [(u & rb & e & _ & -> & _) | (u & rb & Hreq & Hcases)];
    [discriminate|].
  destruct Hcases as [(body & e & _ & ->) | (body & Hquery & Hcases)];
    [discriminate|].
  destruct Hcases as [(r & t & e & _ & ->) | (r & t & _ & ->)];
    [discriminate|].
  cbn [ResponderURL RequestBytes ResponseBytes].
  split; [discriminate|]. split.
  - apply (Hcodec c i), (CreateRequest_ok_bytes _ _ _ _ Hreq).
  - apply (Query_ok_body _ _ _ _ _ _ _ Hquery).
Qed.

(** What [Query] returns when the responder answers with a status code
    other than 200: an error and no bytes; the error is the HTTP error
    made of the response's status text when the body reads to its end. *)
Lemma Query_answered_not_200 (ctx : Context) (serverURL : string)
    (requestBytes : bytes) (httpClient : Client) (w : World)
    (elapsed : Z) (httpResponse : Response) :
  url_Parse serverURL = None ->
  (forall rq, Method rq = "POST" -> URL rq = serverURL ->
              httpClient (clock w) rq = (elapsed, Ok httpResponse)) ->
  StatusCode httpResponse <> 200 ->
  exists err w',
    Query ctx serverURL requestBytes httpClient w
    = Returns (None, Some err) w' /\
    (readErr (Response_Body httpResponse) = None ->
     err = errorString ("HTTP error from OCSP responder: "
                        +:+ Status httpResponse)).
Proof.
  intros Hurl Hanswer Hcode. rewrite Query_run, Hurl. cbv zeta.
  match goal with |- context [httpClient (clock w) ?rq] =>
    rewrite (Hanswer rq eq_refl eq_refl) end.
  cbn [fst snd].
  destruct (readErr (Response_Body httpResponse)) as [e|].
  - eexists _, _. split; [reflexivity | discriminate].
  - destruct (Z.eqb_spec (StatusCode httpResponse) 200); [contradiction|].
    eexists _, _. split; [reflexivity|]. reflexivity.
Qed.

(** C7, as the code has it. Provided the codec returns non-nil request
    bytes when it returns no error: once [CreateRequest] has succeeded,
    the [Evaluation] holds the responder URL and the (non-nil) request
    bytes, whatever happens later. When the responder answers with status
    500, [Err] is not nil and [ResponseBytes] is nil; when moreover the
    body of that answer reads to its end, [Err] is the error
    "HTTP error from OCSP responder: " followed by the status text of the
    answer, which contains "500" when that text begins with "500". *)
Theorem Evaluate_keeps_request_on_failure (ctx : Context)
    (certData issuerSubject issuerPubkey : bytes) (config : option Config)
    (w : World) (cert issuerCert : Certificate) (serverURL : string)
    (requestBytes : bytes) :
  (forall c i rb, ocsp_CreateRequest c i = (rb, None) -> rb <> None) ->
  ParseCertificate certData issuerSubject issuerPubkey
  = (Some cert, Some issuerCert, None) ->
  CreateRequest cert issuerCert = (serverURL, requestBytes, None) ->
  exists eval w',
    Evaluate ctx certData issuerSubject issuerPubkey config w
    = Returns eval w' /\
    ResponderURL eval = Some serverURL /\
    RequestBytes eval = requestBytes /\
    requestBytes <> None /\
    (forall elapsed httpResponse,
       url_Parse serverURL = None ->
       (forall rq, Method rq = "POST" -> URL rq = serverURL ->
                   Config_httpClient config (clock w) rq
                   = (elapsed, Ok httpResponse)) ->
       StatusCode httpResponse = 500 ->
       Err eval <> None /\
       ResponseBytes eval = None /\
       (readErr (Response_Body httpResponse) = None ->
        Err eval
        = Some (errorString ("HTTP error from OCSP responder: "
                             +:+ Status httpResponse)) /\
        (HasPrefix (Status httpResponse) "500" = true ->
         exists err,
           Err eval = Some err /\ Contains (Error err) "500" = true))).
Proof.
  intros Hcodec Hparse Hreq.
  destruct (Evaluate_cases ctx certData issuerSubject issuerPubkey config w)
    as (eval & w' & Hrun & Hcases).
  exists eval, w'. split; [exact Hrun|].
  destruct Hcases as [(c & i & e & Hp & _) | (c & i & Hp & Hcases)];
    [congruence|].
  assert (c = cert) as -> by congruence.
  assert (i = issuerCert) as -> by congruence.
  destruct Hcases as [(u & rb & e & Hr & _) | (u & rb & Hr & Hcases)];
    [congruence|].
  assert (u = serverURL) as -> by congruence.
  assert (rb = requestBytes) as -> by congruence.
  assert (Hfields : ResponderURL eval = Some serverURL /\
                    RequestBytes eval = requestBytes).
  { destruct Hcases as [(body & e & _ & ->) | (body & _ & Hcases)];
      [split; reflexivity|].
    destruct Hcases as [(r & t & e & _ & ->) | (r & t & _ & ->)];
      split; reflexivity. }
  destruct Hfields as [Hurl Hbytes].
  split; [exact Hurl|]. split; [exact Hbytes|]. split.
  { apply (Hcodec cert issuerCert), (CreateRequest_ok_bytes _ _ _ _ Hreq). }
  intros elapsed httpResponse Hparseurl Hanswer Hcode.
  assert (Hnot200 : StatusCode httpResponse <> 200) by (rewrite Hcode; lia).
  destruct (Query_answered_not_200 ctx serverURL requestBytes
              (Config_httpClient config) w elapsed httpResponse
              Hparseurl Hanswer Hnot200) as (qerr & w1 & Hquery & Hread).
  destruct Hcases as [(body & e & Hq & ->) | (body & Hq & _)];
    [|congruence].
  assert (e = qerr) as -> by congruence.
  cbn [Err ResponseBytes]. split; [discriminate|]. split; [reflexivity|].
  intros Hbody. rewrite (Hread Hbody). split; [reflexivity|].
  intros Hstatus. eexists. split; [reflexivity|].
  cbn [Error]. apply Contains_app_r, Contains_HasPrefix, Hstatus.
Qed.

End Evaluate_claims.




(** C1 as stated fails: when the codec reads the response as unknown, the
    three fields are set and [Err] is not nil. *)
Lemma Evaluate_unknown_status_all_fields_set :
  exists eval w',
    @Evaluate (Fixture.collaborators Fixture.leaf Fixture.unknown
                 (Fixture.responder Fixture.ok200))
       Fixture.background (Fixture.der [Byte.x30; Byte.x82])
       (Fixture.der [Byte.x30; Byte.x0b]) (Fixture.der [Byte.x30; Byte.x59])
       None Fixture.start
    = Returns eval w' /\
    eval = mkEvaluation (Some "http://ocsp.example.com")
             (Some [Byte.x30; Byte.x00]) (Some [Byte.x30; Byte.x03])
             120000000 (Some ErrUnknown) /\
    ~ (Err eval = None <->
       ResponderURL eval <> None /\
       RequestBytes eval <> None /\
       ResponseBytes eval <> None).
Proof.
  eexists _, _. split; [vm_compute; reflexivity|].
  split; [reflexivity|]. cbn [Err ResponderURL RequestBytes ResponseBytes].
  intros [_ Hback].
  assert (Hnil : Some ErrUnknown = None) by (apply Hback; repeat split; discriminate).
  discriminate Hnil.
Qed.

(** Witness of C1 as amended: a good response. *)
Lemma Evaluate_no_error_fields_set_witness :
  exists eval w',
    @Evaluate (Fixture.collaborators Fixture.leaf Fixture.good
                 (Fixture.responder Fixture.ok200))
       Fixture.background (Fixture.der [Byte.x30; Byte.x82])
       (Fixture.der [Byte.x30; Byte.x0b]) (Fixture.der [Byte.x30; Byte.x59])
       None Fixture.start
    = Returns eval w' /\
    Err eval = None /\
    ResponderURL eval <> None /\
    RequestBytes eval <> None /\
    ResponseBytes eval <> None.
Proof.
  destruct (@Evaluate_no_error_fields_set
              (Fixture.collaborators Fixture.leaf Fixture.good
                 (Fixture.responder Fixture.ok200))
              Fixture.background (Fixture.der [Byte.x30; Byte.x82])
              (Fixture.der [Byte.x30; Byte.x0b])
              (Fixture.der [Byte.x30; Byte.x59]) None Fixture.start)
    as (eval & w' & Hrun & Hfields).
  - intros c i rb [= <-]. discriminate.
  - exists eval, w'. split; [exact Hrun|].
    assert (Herr : Err eval = None).
    { vm_compute in Hrun. injection Hrun as <- _. reflexivity. }
    split; [exact Herr|]. apply Hfields, Herr.
Defined.

(** C7 as stated fails: when the body of the 500 answer breaks off,
    [Err] is the read error, whose text has no "500". *)
Lemma Evaluate_500_truncated_body :
  StatusCode Fixture.truncated500 = 500 /\
  exists eval w' err,
    @Evaluate (Fixture.collaborators Fixture.leaf Fixture.good
                 (Fixture.responder Fixture.truncated500))
       Fixture.background (Fixture.der [Byte.x30; Byte.x82])
       (Fixture.der [Byte.x30; Byte.x0b]) (Fixture.der [Byte.x30; Byte.x59])
       None Fixture.start
    = Returns eval w' /\
    Err eval = Some err /\
    Error err = "error reading response from OCSP responder: unexpected EOF" /\
    Contains (Error err) "500" = false.
Proof.
  split; [reflexivity|]. eexists _, _, _.
  split; [vm_compute; reflexivity|]. split; [reflexivity|].
  split; reflexivity.
Qed.

(** Witness of C7 as amended: the responder answers
    500 Internal Server Error, body read to its end. *)
Lemma Evaluate_keeps_request_on_failure_witness :
  exists eval w' err,
    @Evaluate (Fixture.collaborators Fixture.leaf Fixture.good
                 (Fixture.responder Fixture.error500))
       Fixture.background (Fixture.der [Byte.x30; Byte.x82])
       (Fixture.der [Byte.x30; Byte.x0b]) (Fixture.der [Byte.x30; Byte.x59])
       None Fixture.start
    = Returns eval w' /\
    ResponderURL eval = Some "http://ocsp.example.com" /\
    RequestBytes eval = Some [Byte.x30; Byte.x00] /\
    Err eval = Some err /\
    Contains (Error err) "500" = true /\
    ResponseBytes eval = None.
Proof.
  destruct (@Evaluate_keeps_request_on_failure
              (Fixture.collaborators Fixture.leaf Fixture.good
                 (Fixture.responder Fixture.error500))
              Fixture.background (Fixture.der [Byte.x30; Byte.x82])
              (Fixture.der [Byte.x30; Byte.x0b])
              (Fixture.der [Byte.x30; Byte.x59]) None Fixture.start
              Fixture.leaf
              (mkCertificate None (Fixture.der [Byte.x30; Byte.x0b])
                 (Fixture.der [Byte.x30; Byte.x59])
                 (Some (DecodedKey [Byte.x04])) [] [] [])
              "http://ocsp.example.com" (Fixture.der [Byte.x30; Byte.x00]))
    as (eval & w' & Hrun & Hurl & Hbytes & _ & H500).
  - intros c i rb [= <-]. discriminate.
  - reflexivity.
  - reflexivity.
  - destruct (H500 120000000 Fixture.error500) as (_ & Hnil & Hread).
    + reflexivity.
    + intros rq _ _. reflexivity.
    + reflexivity.
    + destruct Hread as [_ Hcontains]; [reflexivity|].
      destruct Hcontains as (err & Herr & H500'); [reflexivity|].
      exists eval, w', err. auto 10.
Defined.

(** Witness of C8: a certificate without an [http://] responder; the
    evaluation stops at [CreateRequest] and sends nothing. *)
Lemma Evaluate_captures_first_error_witness :
  exists eval w',
    @Evaluate (Fixture.collaborators Fixture.httpsOnly Fixture.good
                 (Fixture.responder Fixture.ok200))
       Fixture.background (Fixture.der [Byte.x30; Byte.x82])
       (Fixture.der [Byte.x30; Byte.x0b]) (Fixture.der [Byte.x30; Byte.x59])
       None Fixture.start
    = Returns eval w' /\
    eval = mkEvaluation None None None 0 (Some ErrNoResponder) /\
    w' = Fixture.start.
Proof.
  destruct (@Evaluate_captures_first_error
              (Fixture.collaborators Fixture.httpsOnly Fixture.good
                 (Fixture.responder Fixture.ok200))
              Fixture.background (Fixture.der [Byte.x30; Byte.x82])
              (Fixture.der [Byte.x30; Byte.x0b])
              (Fixture.der [Byte.x30; Byte.x59]) None Fixture.start)
    as (eval & w' & Hrun & _ & Hstages).
  exists eval, w'. split; [exact Hrun|].
  apply (proj1 (Hstages Fixture.httpsOnly
                  (mkCertificate None (Fixture.der [Byte.x30; Byte.x0b])
                     (Fixture.der [Byte.x30; Byte.x59])
                     (Some (DecodedKey [Byte.x04])) [] [] [])
                  eq_refl) "" None ErrNoResponder).
  reflexivity.
Defined.

(** * Further properties of the package *)

(** ** Which responder is selected *)

Lemma HasPrefix_inv (s prefix : string) :
  HasPrefix s prefix = true -> exists rest, s = prefix +:+ rest.
Proof.
  revert s. induction prefix as [|p prefix IH]; intros s Hp.
  - exists s. reflexivity.
  - destruct s as [|c s]; [discriminate|]. cbn in Hp.
    apply andb_prop in Hp as [Hc Hrest].
    apply Ascii.eqb_eq in Hc. subst c.
    destruct (IH s Hrest) as (rest & ->). exists rest. reflexivity.
Qed.

Lemma http_prefix_not_https (s : string) :
  HasPrefix s "http://" = true -> HasPrefix s "https://" = false.
Proof. intros Hp. destruct (HasPrefix_inv _ _ Hp) as (rest & ->). reflexivity. Qed.

(** The loop of [getOCSPServer] ends either with the empty string, no
    entry having the prefix, or with an entry of the list that has it. *)
Lemma getOCSPServer_loop_dichotomy (servers : list string) :
  (getOCSPServer_loop servers = "" /\
   Forall (fun s => HasPrefix s "http://" = false) servers) \/
  (In (getOCSPServer_loop servers) servers /\
   HasPrefix (getOCSPServer_loop servers) "http://" = true).
Proof.
  induction servers as [|s rest IH]; cbn [getOCSPServer_loop In].
  - left. split; [reflexivity | constructor].
  - destruct (HasPrefix s "http://") eqn:Hs.
    + right. split; [left; reflexivity | exact Hs].
    + destruct IH as [[Hnone Hall] | [Hin Hp]].
      * left. split; [exact Hnone | constructor; assumption].
      * right. split; [right; exact Hin | exact Hp].
Qed.

Lemma no_http_entry_iff (servers : list string) :
  Forall (fun s => HasPrefix s "http://" = false) servers <->
  ~ exists server, In server servers /\ HasPrefix server "http://" = true.
Proof.
  rewrite Forall_forall. split.
  - intros Hall (server & Hin & Hp). apply list_elem_of_In in Hin.
    rewrite (Hall _ Hin) in Hp. discriminate.
  - intros Hnone server Hin.
    destruct (HasPrefix server "http://") eqn:Hp; [|reflexivity].
    elim Hnone. exists server. split; [apply list_elem_of_In, Hin | exact Hp].
Qed.

(** X1. [getOCSPServer] returns either the empty string, when no responder
    URI of the certificate begins with [http://], or one of the
    certificate's responder URIs, which then begins with [http://] and so
    not with [https://]: an [https] responder is never selected. *)
Theorem getOCSPServer_selects_http_entry (cert : Certificate) :
  (getOCSPServer cert = "" /\
   Forall (fun s => HasPrefix s "http://" = false) (OCSPServer cert)) \/
  (In (getOCSPServer cert) (OCSPServer cert) /\
   HasPrefix (getOCSPServer cert) "http://" = true /\
   HasPrefix (getOCSPServer cert) "https://" = false).
Proof.
  unfold getOCSPServer.
  destruct (getOCSPServer_loop_dichotomy (OCSPServer cert))
    as [Hnone | [Hin Hp]]; [left; exact Hnone|].
  right. split; [exact Hin|]. split; [exact Hp|].
  apply http_prefix_not_https, Hp.
Qed.

(** X2. [isOCSPResponderCert] holds exactly when the extended key usages
    include OCSP signing, and [hasOCSPNoCheck] exactly when some extension
    has the object identifier 1.3.6.1.5.5.7.48.1.5, whatever its critical
    flag and value. *)
Theorem responder_and_no_check_scans (cert : Certificate) :
  (isOCSPResponderCert cert = true <->
   In ExtKeyUsageOCSPSigning (Certificate_ExtKeyUsage cert)) /\
  (hasOCSPNoCheck cert = true <->
   exists critical value,
     In (mkExtension [1; 3; 6; 1; 5; 5; 7; 48; 1; 5] critical value)
        (Extensions cert)).
Proof.
  split; [apply isOCSPResponderCert_loop_In|].
  unfold hasOCSPNoCheck. rewrite hasOCSPNoCheck_loop_In. split.
  - intros ([oid critical value] & Hin & Hid). cbn in Hid. subst oid.
    exists critical, value. exact Hin.
  - intros (critical & value & Hin). eexists. split; [exact Hin | reflexivity].
Qed.

(** ** How [CreateRequest] and [ParseCertificate] end *)

Section Request_outcomes.

Context `{Collaborators}.

Lemma getOCSPServer_empty_iff (cert : Certificate) :
  getOCSPServer cert = "" <->
  Forall (fun s => HasPrefix s "http://" = false) (OCSPServer cert).
Proof.
  unfold getOCSPServer. split.
  - intros Hempty.
    destruct (getOCSPServer_loop_dichotomy (OCSPServer cert))
      as [[_ Hall] | [_ Hp]]; [exact Hall|].
    rewrite Hempty in Hp. discriminate.
  - apply getOCSPServer_loop_none.
Qed.

(** X3. The error of [CreateRequest] tells the certificate apart: it is
    [ErrNoResponder] exactly when no responder URI begins with [http://];
    it is [ErrNoCheck] exactly when there is such a URI and the
    certificate both has the OCSP signing usage and carries OCSP-No-Check
    (either alone does not stop the request); otherwise the codec is asked,
    and [CreateRequest] returns the codec's bytes with no error, or with
    the codec's error wrapped under "error creating OCSP request: ". *)
Theorem CreateRequest_outcomes (cert issuerCert : Certificate) :
  (snd (CreateRequest cert issuerCert) = Some ErrNoResponder <->
   Forall (fun s => HasPrefix s "http://" = false) (OCSPServer cert)) /\
  (snd (CreateRequest cert issuerCert) = Some ErrNoCheck <->
   getOCSPServer cert <> "" /\
   In ExtKeyUsageOCSPSigning (Certificate_ExtKeyUsage cert) /\
   exists ext, In ext (Extensions cert) /\ Id ext = oidOCSPNoCheck) /\
  (getOCSPServer cert <> "" ->
   ~ (In ExtKeyUsageOCSPSigning (Certificate_ExtKeyUsage cert) /\
      exists ext, In ext (Extensions cert) /\ Id ext = oidOCSPNoCheck) ->
   CreateRequest cert issuerCert =
   (getOCSPServer cert, fst (ocsp_CreateRequest cert issuerCert),
    match snd (ocsp_CreateRequest cert issuerCert) with
    | Some err =>
        Some (wrapError ("error creating OCSP request: " +:+ Error err) err)
    | None => None
    end)).
Proof.
  rewrite <- getOCSPServer_empty_iff.
  rewrite <- (isOCSPResponderCert_loop_In (Certificate_ExtKeyUsage cert)).
  rewrite <- (hasOCSPNoCheck_loop_In (Extensions cert)).
  fold (isOCSPResponderCert cert). fold (hasOCSPNoCheck cert).
  unfold CreateRequest.
  destruct (String.eqb_spec (getOCSPServer cert) "") as [Hempty | Hurl].
  { cbn [snd]. split; [tauto|]. split; [|tauto].
    split; [discriminate | tauto]. }
  destruct (isOCSPResponderCert cert), (hasOCSPNoCheck cert); cbn [andb snd].
  1: { split; [split; [discriminate | tauto]|]. split; [tauto|].
       intros _ Hnot. elim Hnot. tauto. }
  all: destruct (ocsp_CreateRequest cert issuerCert) as [rb [err|]];
    cbn [fst snd];
    (split; [split; [discriminate | tauto]|]);
    (split; [split; [discriminate | intros (_ & ? & ?); discriminate]|]);
    reflexivity.
Qed.

(** X4. [ParseCertificate] reports the certificate's decoding error before
    the key's, returns the decoded certificate even when the key fails,
    and on success builds an issuer holding exactly the given subject
    bytes, the given key bytes and the decoded key, with no responder, key
    usage or extension. The issuer subject is never decoded: which error
    comes back, if any, does not depend on it. *)
Theorem ParseCertificate_outcomes
    (certData issuerSubject issuerPubkeyBytes : bytes) :
  (forall err,
     x509_ParseCertificate certData = Fail err ->
     ParseCertificate certData issuerSubject issuerPubkeyBytes
     = (None, None,
        Some (wrapError ("unable to parse certificate: " +:+ Error err) err))) /\
  (forall cert err,
     x509_ParseCertificate certData = Ok cert ->
     x509_ParsePKIXPublicKey issuerPubkeyBytes = Fail err ->
     ParseCertificate certData issuerSubject issuerPubkeyBytes
     = (Some cert, None,
        Some (wrapError ("unable to parse issuer public key: " +:+ Error err)
                err))) /\
  (forall cert key,
     x509_ParseCertificate certData = Ok cert ->
     x509_ParsePKIXPublicKey issuerPubkeyBytes = Ok key ->
     ParseCertificate certData issuerSubject issuerPubkeyBytes
     = (Some cert,
        Some (mkCertificate None issuerSubject issuerPubkeyBytes (Some key)
                [] [] []),
        None)) /\
  (forall otherSubject,
     snd (ParseCertificate certData otherSubject issuerPubkeyBytes)
     = snd (ParseCertificate certData issuerSubject issuerPubkeyBytes)).
Proof.
  unfold ParseCertificate. repeat split.
  - intros err ->. reflexivity.
  - intros cert err -> ->. reflexivity.
  - intros cert key -> ->. reflexivity.
  - intros otherSubject.
    destruct (x509_ParseCertificate certData); [|reflexivity].
    destruct (x509_ParsePKIXPublicKey issuerPubkeyBytes); reflexivity.
Qed.

(** X5. The issuer that [ParseCertificate] builds serves only as an issuer:
    handed to [CreateRequest] as the certificate to check, it fails with
    [ErrNoResponder], whatever the second argument and the codec. *)
Theorem issuer_stub_has_no_responder
    (certData issuerSubject issuerPubkeyBytes : bytes)
    (cert issuerCert other : Certificate) :
  ParseCertificate certData issuerSubject issuerPubkeyBytes
  = (Some cert, Some issuerCert, None) ->
  CreateRequest issuerCert other = ("", None, Some ErrNoResponder).
Proof.
  unfold ParseCertificate.
  destruct (x509_ParseCertificate certData); [|discriminate].
  destruct (x509_ParsePKIXPublicKey issuerPubkeyBytes); [|discriminate].
  intros [= _ <-]. reflexivity.
Qed.

End Request_outcomes.

(** Witness of X3: the three kinds of certificate. *)
Lemma CreateRequest_outcomes_witness :
  snd (@CreateRequest (Fixture.collaborators Fixture.leaf Fixture.good
                         (Fixture.responder Fixture.ok200))
         Fixture.httpsOnly Fixture.issuer) = Some ErrNoResponder /\
  snd (@CreateRequest (Fixture.collaborators Fixture.leaf Fixture.good
                         (Fixture.responder Fixture.ok200))
         Fixture.responderWithURL Fixture.issuer) = Some ErrNoCheck /\
  @CreateRequest (Fixture.collaborators Fixture.leaf Fixture.good
                    (Fixture.responder Fixture.ok200))
     Fixture.leaf Fixture.issuer
  = ("http://ocsp.example.com", Fixture.der [Byte.x30; Byte.x00], None).
Proof.
  split; [|split].
  - apply (proj1 (@CreateRequest_outcomes
                    (Fixture.collaborators Fixture.leaf Fixture.good
                       (Fixture.responder Fixture.ok200))
                    Fixture.httpsOnly Fixture.issuer)).
    repeat constructor.
  - apply (proj1 (proj2 (@CreateRequest_outcomes
                    (Fixture.collaborators Fixture.leaf Fixture.good
                       (Fixture.responder Fixture.ok200))
                    Fixture.responderWithURL Fixture.issuer))).
    split; [discriminate|]. split; [right; left; reflexivity|].
    exists Fixture.noCheck. split; [right; left|]; reflexivity.
  - apply (proj2 (proj2 (@CreateRequest_outcomes
                    (Fixture.collaborators Fixture.leaf Fixture.good
                       (Fixture.responder Fixture.ok200))
                    Fixture.leaf Fixture.issuer))).
    + discriminate.
    + intros [[Heku | [Heku | []]] _]; discriminate.
Defined.

(** Witness of X4: decoders that accept every input. *)
Lemma ParseCertificate_outcomes_witness :
  @ParseCertificate (Fixture.collaborators Fixture.leaf Fixture.good
                       (Fixture.responder Fixture.ok200))
     (Fixture.der [Byte.x30; Byte.x82]) None (Fixture.der [Byte.x30; Byte.x59])
  = (Some Fixture.leaf,
     Some (mkCertificate None None (Fixture.der [Byte.x30; Byte.x59])
             (Some (DecodedKey [Byte.x04])) [] [] []),
     None).
Proof.
  apply (proj1 (proj2 (proj2 (@ParseCertificate_outcomes
                    (Fixture.collaborators Fixture.leaf Fixture.good
                       (Fixture.responder Fixture.ok200))
                    (Fixture.der [Byte.x30; Byte.x82]) None
                    (Fixture.der [Byte.x30; Byte.x59]))))); reflexivity.
Defined.

(** Witness of X5. *)
Lemma issuer_stub_has_no_responder_witness :
  @CreateRequest (Fixture.collaborators Fixture.leaf Fixture.good
                    (Fixture.responder Fixture.ok200))
     (mkCertificate None (Fixture.der [Byte.x30; Byte.x0b])
        (Fixture.der [Byte.x30; Byte.x59]) (Some (DecodedKey [Byte.x04]))
        [] [] [])
     Fixture.leaf
  = ("", None, Some ErrNoResponder).
Proof.
  apply (@issuer_stub_has_no_responder
           (Fixture.collaborators Fixture.leaf Fixture.good
              (Fixture.responder Fixture.ok200))
           (Fixture.der [Byte.x30; Byte.x82]) (Fixture.der [Byte.x30; Byte.x0b])
           (Fixture.der [Byte.x30; Byte.x59]) Fixture.leaf).
  reflexivity.
Defined.

(** ** The exchange [Query] makes *)

Section Exchange.

Context `{Collaborators}.

(** X6. [Query] returns without error exactly when the URL parses, the
    client answers the request with a response whose body reads to its
    end, whose status code is 200 and whose first Content-Type value is
    "application/ocsp-response"; the bytes returned are then the body of
    that response, unchanged. *)
Theorem Query_succeeds_iff (ctx : Context) (serverURL : string)
    (requestBytes : bytes) (httpClient : Client) (w w' : World) (body : bytes) :
  let httpRequest :=
    mkRequest "POST" serverURL
      (<["Idempotency-Key" := []]>
         (<["Content-Type" := ["application/ocsp-request"]]> ∅))
      requestBytes (context_WithDeadline ctx (clock w + QueryTimeout)) in
  Query ctx serverURL requestBytes httpClient w = Returns (body, None) w' <->
  url_Parse serverURL = None /\
  exists elapsed httpResponse,
    httpClient (clock w) httpRequest = (elapsed, Ok httpResponse) /\
    readErr (Response_Body httpResponse) = None /\
    StatusCode httpResponse = 200 /\
    Header_Get (Response_Header httpResponse) "Content-Type"
    = "application/ocsp-response" /\
    body = Some (content (Response_Body httpResponse)) /\
    w' = mkWorld (clock w + elapsed) (httpRequest :: sent w).
Proof.
  intros httpRequest. rewrite Query_run. fold httpRequest.
  destruct (url_Parse serverURL) as [err|].
  { split; [discriminate | intros [? _]; discriminate]. }
  cbv zeta. fold httpRequest.
  destruct (httpClient (clock w) httpRequest) as [elapsed [httpResponse | err]]
    eqn:Hanswer; cbn [fst snd].
  2: { split; [discriminate|]. intros (_ & e & r & Heq & _). congruence. }
  split.
  - intros Hrun. split; [reflexivity|]. exists elapsed, httpResponse.
    split; [reflexivity|].
    destruct (readErr (Response_Body httpResponse)); [discriminate|].
    destruct (Z.eqb_spec (StatusCode httpResponse) 200) as [Hcode|];
      [|discriminate].
    destruct (String.eqb_spec
                (Header_Get (Response_Header httpResponse) "Content-Type")
                "application/ocsp-response") as [Htype|]; [|discriminate].
    cbn [negb] in Hrun. injection Hrun as <- <-. auto.
  - intros (_ & e & r & [= <- <-] & -> & Hcode & Htype & -> & ->).
    rewrite Hcode, Htype. reflexivity.
Qed.

(** X7. When the URL does not parse, [Query] sends nothing and returns the
    parse error wrapped under "error with OCSP responder URL: ". When it
    parses, [Query] hands the client exactly one request, a POST to
    [serverURL] whose body is [requestBytes], and the clock advances by
    the time that exchange takes, whether it succeeds or not. *)
Theorem Query_sends_one_POST (ctx : Context) (serverURL : string)
    (requestBytes : bytes) (httpClient : Client) (w : World) :
  (forall err,
     url_Parse serverURL = Some err ->
     Query ctx serverURL requestBytes httpClient w
     = Returns
         (None,
          Some (wrapError ("error with OCSP responder URL: " +:+ Error err)
                  err)) w) /\
  (url_Parse serverURL = None ->
   exists res rq,
     Query ctx serverURL requestBytes httpClient w
     = Returns res
         (mkWorld (clock w + fst (httpClient (clock w) rq)) (rq :: sent w)) /\
     Method rq = "POST" /\
     URL rq = serverURL /\
     Request_Body rq = requestBytes).
Proof.
  rewrite Query_run. split.
  - intros err ->. reflexivity.
  - intros ->. cbv zeta. eexists _, _. split; [reflexivity|].
    repeat split.
Qed.

(** X8. For a status 200 response whose body reads to its end, only the
    first value of the Content-Type header counts and it is compared as
    it stands: the exact value is accepted whatever values follow it, any
    other first value (a media type with parameters, say) is refused with
    that value in the error, and a response with no Content-Type value is
    refused with an empty value in the error. *)
Theorem Query_content_type_first_value (ctx : Context) (serverURL : string)
    (requestBytes : bytes) (httpClient : Client) (w : World)
    (elapsed : Z) (httpResponse : Response) :
  url_Parse serverURL = None ->
  (forall rq, Method rq = "POST" -> URL rq = serverURL ->
              httpClient (clock w) rq = (elapsed, Ok httpResponse)) ->
  readErr (Response_Body httpResponse) = None ->
  StatusCode httpResponse = 200 ->
  exists w',
    (forall more,
       Response_Header httpResponse !! "Content-Type"
       = Some ("application/ocsp-response" :: more) ->
       Query ctx serverURL requestBytes httpClient w
       = Returns (Some (content (Response_Body httpResponse)), None) w') /\
    (forall value more,
       Response_Header httpResponse !! "Content-Type" = Some (value :: more) ->
       value <> "application/ocsp-response" ->
       Query ctx serverURL requestBytes httpClient w
       = Returns
           (None,
            Some (errorString
                    ("HTTP response header has invalid Content-Type value "
                     +:+ value))) w') /\
    (Response_Header httpResponse !! "Content-Type" = None \/
     Response_Header httpResponse !! "Content-Type" = Some [] ->
     Query ctx serverURL requestBytes httpClient w
     = Returns
         (None,
          Some (errorString
                  "HTTP response header has invalid Content-Type value "))
         w').
Proof.
  intros Hurl Hanswer Hbody Hcode.
  destruct (Query_answered ctx serverURL requestBytes httpClient w elapsed
              httpResponse Hurl Hanswer Hbody) as (w' & _ & Hrun).
  exists w'. rewrite Hrun, Hcode. clear Hrun. cbn [Z.eqb Pos.eqb negb].
  unfold Header_Get. split; [|split].
  - intros more ->. reflexivity.
  - intros value more -> Hvalue.
    destruct (String.eqb_spec value "application/ocsp-response");
      [contradiction | reflexivity].
  - intros [-> | ->]; reflexivity.
Qed.

(** X9. [Query] returns either bytes or an error, never both and never
    neither: the bytes are nil exactly when the error is not. *)
Theorem Query_bytes_or_error (ctx : Context) (serverURL : string)
    (requestBytes : bytes) (httpClient : Client) (w : World) :
  exists body err w',
    Query ctx serverURL requestBytes httpClient w = Returns (body, err) w' /\
    (body = None <-> err <> None).
Proof.
  destruct (Query_returns ctx serverURL requestBytes httpClient w)
    as (body & err & w' & Hrun).
  exists body, err, w'. split; [exact Hrun|].
  destruct err as [err|].
  - split; [discriminate|]. intros _.
    apply (Query_error_body _ _ _ _ _ _ _ _ Hrun).
  - split; [|congruence]. intros Hnil.
    elim (Query_ok_body _ _ _ _ _ _ _ Hrun Hnil).
Qed.

End Exchange.

(** Witness of X6: the answer 200 OK with the OCSP media type. *)
Lemma Query_succeeds_iff_witness :
  @Query (Fixture.collaborators Fixture.leaf Fixture.good
            (Fixture.responder Fixture.ok200))
     Fixture.background "http://ocsp.example.com"
     (Fixture.der [Byte.x30; Byte.x00]) (Fixture.responder Fixture.ok200)
     Fixture.start
  = Returns (Some [Byte.x30; Byte.x03], None)
      (mkWorld 120001000
         [mkRequest "POST" "http://ocsp.example.com"
            (<["Idempotency-Key" := []]>
               (<["Content-Type" := ["application/ocsp-request"]]> ∅))
            (Fixture.der [Byte.x30; Byte.x00])
            (mkContext (Some 10000001000))]).
Proof.
  apply (@Query_succeeds_iff
           (Fixture.collaborators Fixture.leaf Fixture.good
              (Fixture.responder Fixture.ok200))).
  split; [reflexivity|]. exists 120000000, Fixture.ok200.
  repeat split.
Defined.

(** Witness of X7: a URL that parses. *)
Lemma Query_sends_one_POST_witness :
  exists res rq,
    @Query (Fixture.collaborators Fixture.leaf Fixture.good
              (Fixture.responder Fixture.ok200))
       Fixture.background "http://ocsp.example.com"
       (Fixture.der [Byte.x30; Byte.x00]) (Fixture.responder Fixture.error500)
       Fixture.start
    = Returns res (mkWorld (1000 + 120000000) (rq :: [])) /\
    Method rq = "POST" /\
    URL rq = "http://ocsp.example.com" /\
    Request_Body rq = Fixture.der [Byte.x30; Byte.x00].
Proof.
  apply (proj2 (@Query_sends_one_POST
                  (Fixture.collaborators Fixture.leaf Fixture.good
                     (Fixture.responder Fixture.ok200))
                  Fixture.background "http://ocsp.example.com"
                  (Fixture.der [Byte.x30; Byte.x00])
                  (Fixture.responder Fixture.error500) Fixture.start)).
  reflexivity.
Defined.

(** Witness of X8: a 200 answer of Content-Type text/plain. *)
Lemma Query_content_type_first_value_witness :
  exists w',
    @Query (Fixture.collaborators Fixture.leaf Fixture.good
              (Fixture.responder Fixture.ok200))
       Fixture.background "http://ocsp.example.com"
       (Fixture.der [Byte.x30; Byte.x00]) (Fixture.responder Fixture.plain200)
       Fixture.start
    = Returns
        (None,
         Some (errorString
                 ("HTTP response header has invalid Content-Type value "
                  +:+ "text/plain"))) w'.
Proof.
  destruct (@Query_content_type_first_value
              (Fixture.collaborators Fixture.leaf Fixture.good
                 (Fixture.responder Fixture.ok200))
              Fixture.background "http://ocsp.example.com"
              (Fixture.der [Byte.x30; Byte.x00])
              (Fixture.responder Fixture.plain200) Fixture.start
              120000000 Fixture.plain200)
    as (w' & _ & Hother & _).
  - reflexivity.
  - intros rq _ _. reflexivity.
  - reflexivity.
  - reflexivity.
  - exists w'. apply (Hother "text/plain" []); [|discriminate].
    vm_compute. reflexivity.
Defined.

(** ** The pipeline as a whole *)

Section Pipeline.

Context `{Collaborators}.

(** [CreateRequest] without error returned the responder it selected. *)
Lemma CreateRequest_ok_serverURL (cert issuerCert : Certificate)
    (serverURL : string) (requestBytes : bytes) :
  CreateRequest cert issuerCert = (serverURL, requestBytes, None) ->
  serverURL = getOCSPServer cert /\ serverURL <> "".
Proof.
  unfold CreateRequest.
  destruct (String.eqb_spec (getOCSPServer cert) "") as [|Hurl];
    [discriminate|].
  destruct (_ && _); [discriminate|].
  destruct (ocsp_CreateRequest cert issuerCert) as [rb [err|]];
    [discriminate|].
  intros [= <- _]. split; [reflexivity | exact Hurl].
Qed.

(** The certificate of a successful [ParseCertificate] is the decoder's. *)
Lemma ParseCertificate_ok_cert (certData issuerSubject issuerPubkeyBytes : bytes)
    (cert issuerCert : Certificate) :
  ParseCertificate certData issuerSubject issuerPubkeyBytes
  = (Some cert, Some issuerCert, None) ->
  x509_ParseCertificate certData = Ok cert.
Proof.
  unfold ParseCertificate.
  destruct (x509_ParseCertificate certData); [|discriminate].
  destruct (x509_ParsePKIXPublicKey issuerPubkeyBytes); [|discriminate].
  intros [= <- _]. reflexivity.
Qed.


(** X11. [CheckRawCert] returns on every input, with the error of the
    first stage that fails: an error of [ParseCertificate] or of
    [CreateRequest] comes back as it is with the zero verdict and the
    world unchanged (nothing is sent); an error of [Query] comes back as
    it is with the zero verdict; and when none of the three fails the
    results are those of [CheckResponse] on the bytes [Query] returned. *)
Theorem CheckRawCert_first_error (ctx : Context)
    (certData issuerSubject issuerPubkeyBytes : bytes) (httpClient : Client)
    (w : World) :
  exists res w',
    CheckRawCert ctx certData issuerSubject issuerPubkeyBytes httpClient w
    = Returns res w' /\
    (forall cert issuerCert err,
       ParseCertificate certData issuerSubject issuerPubkeyBytes
       = (cert, issuerCert, Some err) ->
       res = (false, zeroTime, Some err) /\ w' = w) /\
    (forall cert issuerCert,
       ParseCertificate certData issuerSubject issuerPubkeyBytes
       = (Some cert, Some issuerCert, None) ->
       (forall serverURL requestBytes err,
          CreateRequest cert issuerCert = (serverURL, requestBytes, Some err) ->
          res = (false, zeroTime, Some err) /\ w' = w) /\
       (forall serverURL requestBytes,
          CreateRequest cert issuerCert = (serverURL, requestBytes, None) ->
          exists body queryErr,
            Query ctx serverURL requestBytes httpClient w
            = Returns (body, queryErr) w' /\
            (forall err,
               queryErr = Some err -> res = (false, zeroTime, Some err)) /\
            (queryErr = None ->
             res = CheckResponse cert issuerCert body))).
Proof.
  unfold CheckRawCert.
  destruct (ParseCertificate certData issuerSubject issuerPubkeyBytes)
    as [[cert issuerCert] [err|]] eqn:Hparse.
  { eexists _, _. split; [reflexivity|]. split.
    - intros c i e [= _ _ <-]. split; reflexivity.
    - intros c i Hp. discriminate Hp. }
  destruct (ParseCertificate_ok _ _ _ _ _ Hparse) as (c & i & -> & ->).
  unfold bind at 1 2. unfold deref, ret at 1 2. unfold CheckCert.
  destruct (CreateRequest c i) as [[serverURL requestBytes] [err|]] eqn:Hreq.
  { eexists _, _. split; [reflexivity|]. split; [discriminate|].
    intros c' i' [= <- <-]. split.
    - intros u rb e Hr. rewrite Hreq in Hr. injection Hr as _ _ <-.
      split; reflexivity.
    - intros u rb Hr. rewrite Hreq in Hr. discriminate Hr. }
  unfold bind.
  destruct (Query_returns ctx serverURL requestBytes httpClient w)
    as (body & qerr & w' & Hquery).
  rewrite Hquery.
  exists (match qerr with
          | Some e => (false, zeroTime, Some e)
          | None => CheckResponse c i body
          end), w'.
  split; [destruct qerr; reflexivity|]. split; [discriminate|].
  intros c' i' [= <- <-]. split.
  - intros u rb e Hr. rewrite Hreq in Hr. discriminate Hr.
  - intros u rb Hr. rewrite Hreq in Hr. injection Hr as <- <-.
    exists body, qerr. split; [exact Hquery|]. split.
    + intros e ->. reflexivity.
    + intros ->. reflexivity.
Qed.

(** X12. [CheckCert] fails before any network call when [CreateRequest]
    fails: the world is unchanged, whatever the client, and the error is
    the one of [CreateRequest] itself, so [ErrNoResponder] for a
    certificate without [http://] responder and [ErrNoCheck] for a
    responder certificate with OCSP-No-Check that has one. *)
Theorem CheckCert_fails_before_network (ctx : Context)
    (cert issuerCert : Certificate) (httpClient : Client) (w : World) :
  (forall serverURL requestBytes err,
     CreateRequest cert issuerCert = (serverURL, requestBytes, Some err) ->
     CheckCert ctx cert issuerCert httpClient w
     = Returns (false, zeroTime, Some err) w) /\
  (Forall (fun s => HasPrefix s "http://" = false) (OCSPServer cert) ->
   CheckCert ctx cert issuerCert httpClient w
   = Returns (false, zeroTime, Some ErrNoResponder) w) /\
  ((exists server,
      In server (OCSPServer cert) /\ HasPrefix server "http://" = true) ->
   In ExtKeyUsageOCSPSigning (Certificate_ExtKeyUsage cert) ->
   (exists ext, In ext (Extensions cert) /\ Id ext = oidOCSPNoCheck) ->
   CheckCert ctx cert issuerCert httpClient w
   = Returns (false, zeroTime, Some ErrNoCheck) w).
Proof.
  assert (Hfail : forall serverURL requestBytes err,
            CreateRequest cert issuerCert = (serverURL, requestBytes, Some err) ->
            CheckCert ctx cert issuerCert httpClient w
            = Returns (false, zeroTime, Some err) w).
  { intros serverURL requestBytes err Hreq. unfold CheckCert.
    rewrite Hreq. reflexivity. }
  split; [exact Hfail|]. split.
  - intros Hnone. apply (Hfail "" None).
    apply CreateRequest_no_responder, Hnone.
  - intros (server & Hin & Hp) Heku Hext.
    apply (Hfail (getOCSPServer cert) None). unfold CreateRequest.
    destruct (String.eqb_spec (getOCSPServer cert) "") as [Heq | _].
    + exfalso. revert Heq. unfold getOCSPServer.
      apply (getOCSPServer_loop_some _ server); assumption.
    + unfold isOCSPResponderCert, hasOCSPNoCheck.
      rewrite (proj2 (isOCSPResponderCert_loop_In _) Heku).
      rewrite (proj2 (hasOCSPNoCheck_loop_In _) Hext). reflexivity.
Qed.

(** X13. [CheckResponse] fails with [ErrUnknown] exactly when the codec
    accepts the response and its status is neither good nor revoked,
    whichever other number the status is. *)
Theorem CheckResponse_unknown_iff (cert issuerCert : Certificate)
    (responseBytes : bytes) :
  snd (CheckResponse cert issuerCert responseBytes) = Some ErrUnknown <->
  exists response,
    ocsp_ParseResponseForCert responseBytes cert issuerCert = Ok response /\
    ocsp_Status response <> ocsp_Good /\
    ocsp_Status response <> ocsp_Revoked.
Proof.
  unfold CheckResponse.
  destruct (ocsp_ParseResponseForCert responseBytes cert issuerCert)
    as [response | err].
  - destruct (Z.eqb_spec (ocsp_Status response) ocsp_Good) as [Hgood|Hgood].
    { split; [discriminate|]. intros (r & [= <-] & Hne & _). contradiction. }
    destruct (Z.eqb_spec (ocsp_Status response) ocsp_Revoked) as [Hrev|Hrev].
    { split; [discriminate|]. intros (r & [= <-] & _ & Hne). contradiction. }
    split; [|reflexivity]. intros _. exists response. auto.
  - split; [discriminate|]. intros (r & Hr & _). discriminate.
Qed.

(** X14. [Evaluate] calls the HTTP client at most once, and only for a
    responder the certificate lists: if the world changes at all, it is by
    one request handed to [Do], a POST whose URL is a responder URI of the
    decoded certificate that begins with [http://].  What the client does
    with that request (sending it again, following a redirect) is its
    own. *)
Theorem Evaluate_contacts_listed_http_responder (ctx : Context)
    (certData issuerSubject issuerPubkey : bytes) (config : option Config)
    (w : World) :
  exists eval w',
    Evaluate ctx certData issuerSubject issuerPubkey config w
    = Returns eval w' /\
    (w' = w \/
     exists rq cert,
       sent w' = rq :: sent w /\
       Method rq = "POST" /\
       x509_ParseCertificate certData = Ok cert /\
       In (URL rq) (OCSPServer cert) /\
       HasPrefix (URL rq) "http://" = true).
Proof.
  destruct (Evaluate_cases ctx certData issuerSubject issuerPubkey config w)
    as (eval & w' & Hrun & Hcases).
  exists eval, w'. split; [exact Hrun|].
  destruct Hcases as [(c & i & e & _ & _ & ->) | (c & i & Hparse & Hcases)];
    [left; reflexivity|].
  destruct Hcases as [(u & rb & e & _ & _ & ->) | (u & rb & Hreq & Hcases)];
    [left; reflexivity|].
  assert (Hquery : exists res,
            Query ctx u rb (Config_httpClient config) w = Returns res w').
  { destruct Hcases as [(body & e & Hq & _) | (body & Hq & _)];
      eexists; exact Hq. }
  destruct Hquery as (res & Hquery). rewrite Query_run in Hquery.
  destruct (url_Parse u); [injection Hquery as _ <-; left; reflexivity|].
  cbv zeta in Hquery. injection Hquery as _ <-. right.
  eexists _, c. cbn [sent]. split; [reflexivity|]. cbn [Method URL].
  split; [reflexivity|].
  split; [apply (ParseCertificate_ok_cert _ _ _ _ _ Hparse)|].
  destruct (CreateRequest_ok_serverURL _ _ _ _ Hreq) as [-> Hne].
  unfold getOCSPServer in *.
  destruct (getOCSPServer_loop_dichotomy (OCSPServer c)) as [[Hempty _] | Hsel];
    [contradiction | exact Hsel].
Qed.

End Pipeline.


(** Witness of X12: the certificate whose only responder is [https]. *)
Lemma CheckCert_fails_before_network_witness :
  @CheckCert (Fixture.collaborators Fixture.leaf Fixture.good
                (Fixture.responder Fixture.ok200))
     Fixture.background Fixture.httpsOnly Fixture.issuer
     (Fixture.responder Fixture.ok200) Fixture.start
  = Returns (false, zeroTime, Some ErrNoResponder) Fixture.start /\
  @CheckCert (Fixture.collaborators Fixture.leaf Fixture.good
                (Fixture.responder Fixture.ok200))
     Fixture.background Fixture.responderWithURL Fixture.issuer
     (Fixture.responder Fixture.ok200) Fixture.start
  = Returns (false, zeroTime, Some ErrNoCheck) Fixture.start.
Proof.
  split.
  - apply (proj1 (proj2 (@CheckCert_fails_before_network
                    (Fixture.collaborators Fixture.leaf Fixture.good
                       (Fixture.responder Fixture.ok200))
                    Fixture.background Fixture.httpsOnly Fixture.issuer
                    (Fixture.responder Fixture.ok200) Fixture.start))).
    repeat constructor.
  - apply (proj2 (proj2 (@CheckCert_fails_before_network
                    (Fixture.collaborators Fixture.leaf Fixture.good
                       (Fixture.responder Fixture.ok200))
                    Fixture.background Fixture.responderWithURL Fixture.issuer
                    (Fixture.responder Fixture.ok200) Fixture.start))).
    + exists "http://ocsp.example.com". split; [left|]; reflexivity.
    + right; left; reflexivity.
    + exists Fixture.noCheck. split; [right; left|]; reflexivity.
Defined.

(** Witness of X13: the codec reads the status 3 (server failed). *)
Lemma CheckResponse_unknown_iff_witness :
  snd (@CheckResponse (Fixture.collaborators Fixture.leaf
                         (mkOcspResponse 3 zeroTime)
                         (Fixture.responder Fixture.ok200))
         Fixture.leaf Fixture.issuer (Fixture.der [Byte.x30; Byte.x03]))
  = Some ErrUnknown.
Proof.
  apply (@CheckResponse_unknown_iff
           (Fixture.collaborators Fixture.leaf (mkOcspResponse 3 zeroTime)
              (Fixture.responder Fixture.ok200))).
  exists (mkOcspResponse 3 zeroTime).
  split; [reflexivity|]. split; discriminate.
Defined.

(** ** The errors of the pipeline *)

Ltac one_of_the_prefixes :=
  cbn [In];
  repeat match goal with
         | H : _ \/ _ |- _ => destruct H
         | H : ?prefix = String _ _ |- _ => subst prefix
         end;
  auto 10.

Section Error_kinds.

Context `{Collaborators}.

Lemma ParseCertificate_error_kind
    (certData issuerSubject issuerPubkeyBytes : bytes)
    (cert issuerCert : option Certificate) (err : error) :
  ParseCertificate certData issuerSubject issuerPubkeyBytes
  = (cert, issuerCert, Some err) ->
  exists prefix cause,
    err = wrapError (prefix +:+ Error cause) cause /\
    (prefix = "unable to parse certificate: " \/
     prefix = "unable to parse issuer public key: ").
Proof.
  unfold ParseCertificate.
  destruct (x509_ParseCertificate certData) as [c | e].
  - destruct (x509_ParsePKIXPublicKey issuerPubkeyBytes) as [k | e];
      [discriminate|].
    intros [= _ _ <-]. eexists _, _. split; [reflexivity | right; reflexivity].
  - intros [= _ _ <-]. eexists _, _. split; [reflexivity | left; reflexivity].
Qed.

Lemma CreateRequest_error_kind (cert issuerCert : Certificate)
    (serverURL : string) (requestBytes : bytes) (err : error) :
  CreateRequest cert issuerCert = (serverURL, requestBytes, Some err) ->
  err = ErrNoResponder \/ err = ErrNoCheck \/
  exists cause,
    err = wrapError ("error creating OCSP request: " +:+ Error cause) cause.
Proof.
  unfold CreateRequest.
  destruct (String.eqb _ _); [intros [= _ _ <-]; auto|].
  destruct (_ && _); [intros [= _ _ <-]; auto|].
  destruct (ocsp_CreateRequest cert issuerCert) as [rb [e|]]; [|discriminate].
  intros [= _ _ <-]. right; right. eexists; reflexivity.
Qed.

Lemma Query_error_kind (ctx : Context) (serverURL : string)
    (requestBytes : bytes) (httpClient : Client) (w w' : World)
    (body : bytes) (err : error) :
  Query ctx serverURL requestBytes httpClient w = Returns (body, Some err) w' ->
  (exists prefix cause,
     err = wrapError (prefix +:+ Error cause) cause /\
     (prefix = "error with OCSP responder URL: " \/
      prefix = "error querying OCSP responder over HTTP: " \/
      prefix = "error reading response from OCSP responder: ")) \/
  (exists prefix text,
     err = errorString (prefix +:+ text) /\
     (prefix = "HTTP error from OCSP responder: " \/
      prefix = "HTTP response header has invalid Content-Type value ")).
Proof.
  rewrite Query_run.
  destruct (url_Parse serverURL) as [e|].
  { intros [= _ <- _]. left. eexists _, _. split; [reflexivity | auto]. }
  cbv zeta. destruct (snd (httpClient _ _)) as [httpResponse | e].
  2: { intros [= _ <- _]. left. eexists _, _. split; [reflexivity | auto]. }
  destruct (readErr (Response_Body httpResponse)) as [e|].
  { intros [= _ <- _]. left. eexists _, _. split; [reflexivity | auto]. }
  destruct (negb (StatusCode httpResponse =? 200)).
  { intros [= _ <- _]. right. eexists _, _. split; [reflexivity | auto]. }
  destruct (negb (String.eqb _ _)); [|discriminate].
  intros [= _ <- _]. right. eexists _, _. split; [reflexivity | auto].
Qed.

Lemma CheckResponse_error_kind (cert issuerCert : Certificate)
    (responseBytes : bytes) (revoked : bool) (revocationTime : Z) (err : error) :
  CheckResponse cert issuerCert responseBytes
  = (revoked, revocationTime, Some err) ->
  err = ErrUnknown \/
  exists cause,
    err = wrapError ("error parsing OCSP response: " +:+ Error cause) cause.
Proof.
  unfold CheckResponse.
  destruct (ocsp_ParseResponseForCert responseBytes cert issuerCert)
    as [response | e].
  - destruct (_ =? ocsp_Good); [discriminate|].
    destruct (_ =? ocsp_Revoked); [discriminate|].
    intros [= _ _ <-]. left; reflexivity.
  - intros [= _ _ <-]. right. eexists; reflexivity.
Qed.

(** X15. Every error [Evaluate] records is of one of three kinds: one of
    the sentinels [ErrNoResponder], [ErrNoCheck], [ErrUnknown], returned as
    they are (so comparable by identity); a collaborator's error wrapped
    by [%w], whose text is the text of the cause after one of seven fixed
    prefixes that name the stage; or a plain error for a bad HTTP status
    or Content-Type, whose text begins with one of two fixed prefixes. *)
Theorem Evaluate_error_kinds (ctx : Context)
    (certData issuerSubject issuerPubkey : bytes) (config : option Config)
    (w : World) :
  exists eval w',
    Evaluate ctx certData issuerSubject issuerPubkey config w
    = Returns eval w' /\
    (Err eval = None \/
     Err eval = Some ErrNoResponder \/
     Err eval = Some ErrNoCheck \/
     Err eval = Some ErrUnknown \/
     (exists prefix cause,
        Err eval = Some (wrapError (prefix +:+ Error cause) cause) /\
        In prefix
          ["unable to parse certificate: ";
           "unable to parse issuer public key: ";
           "error creating OCSP request: ";
           "error with OCSP responder URL: ";
           "error querying OCSP responder over HTTP: ";
           "error reading response from OCSP responder: ";
           "error parsing OCSP response: "]) \/
     (exists prefix text,
        Err eval = Some (errorString (prefix +:+ text)) /\
        In prefix
          ["HTTP error from OCSP responder: ";
           "HTTP response header has invalid Content-Type value "])).
Proof.
  destruct (Evaluate_cases ctx certData issuerSubject issuerPubkey config w)
    as (eval & w' & Hrun & Hcases).
  exists eval, w'. split; [exact Hrun|].
  destruct Hcases as [(c & i & e & Hparse & -> & _) | (c & i & _ & Hcases)].
  { destruct (ParseCertificate_error_kind _ _ _ _ _ _ Hparse)
      as (prefix & cause & -> & Hprefix).
    do 4 right. left. exists prefix, cause. split; [reflexivity|].
    one_of_the_prefixes. }
  destruct Hcases as [(u & rb & e & Hreq & -> & _) | (u & rb & _ & Hcases)].
  { destruct (CreateRequest_error_kind _ _ _ _ _ Hreq)
      as [-> | [-> | (cause & ->)]]; [tauto | tauto |].
    do 4 right. left. eexists _, cause. split; [reflexivity|].
    one_of_the_prefixes. }
  destruct Hcases as [(body & e & Hquery & ->) | (body & _ & Hcases)].
  { destruct (Query_error_kind _ _ _ _ _ _ _ _ Hquery)
      as [(prefix & cause & -> & Hprefix) | (prefix & text & -> & Hprefix)].
    - do 4 right. left. exists prefix, cause. split; [reflexivity|].
      one_of_the_prefixes.
    - do 5 right. exists prefix, text. split; [reflexivity|].
      one_of_the_prefixes. }
  destruct Hcases as [(r & t & e & Hcheck & ->) | (r & t & _ & ->)];
    [|left; reflexivity].
  destruct (CheckResponse_error_kind _ _ _ _ _ _ Hcheck) as [-> | (cause & ->)];
    [tauto|].
  do 4 right. left. eexists _, cause. split; [reflexivity|].
  one_of_the_prefixes.
Qed.

End Error_kinds.

(** ** Reading the certificate chain *)

Section Chain.

Context `{Collaborators}.
Variable pem_Decode : list Byte.byte -> option (pem_Block * nat).

(** One turn of the loop of [readChain]. *)
Lemma readChain_loop_turn (inBytes : list Byte.byte) (certs : list Certificate) :
  readChain_loop pem_Decode inBytes certs =
  match inBytes with
  | [] => (certs, None)
  | _ :: tl =>
      match pem_Decode inBytes with
      | None => ([], Some (errorString "invalid PEM"))
      | Some (block, before_rest) =>
          if String.eqb (Block_Type block) "CERTIFICATE"
          then match x509_ParseCertificate (Block_Bytes block) with
               | Fail err => ([], Some err)
               | Ok cert =>
                   readChain_loop pem_Decode (drop before_rest tl)
                     (certs ++ [cert])
               end
          else readChain_loop pem_Decode (drop before_rest tl) certs
      end
  end.
Proof.
  destruct inBytes as [|b tl]; simp readChain_loop; [reflexivity|].
  destruct (pem_Decode (b :: tl)) as [[block before_rest]|]; cbn;
    [|reflexivity].
  destruct (String.eqb (Block_Type block) "CERTIFICATE"); cbn;
    [|reflexivity].
  destruct (x509_ParseCertificate (Block_Bytes block)); reflexivity.
Qed.

Variable enc : pem_Block -> list Byte.byte.

(** The loop over an input that begins with the encodings of [blocks],
    each of which decodes to its block and leaves what follows it: the
    certificates of the blocks of type CERTIFICATE are appended, and the
    loop goes on with the rest. *)
Lemma readChain_loop_blocks (blocks : list pem_Block) (rest : list Byte.byte)
    (certs : list Certificate) :
  (forall block after,
     In block blocks ->
     enc block <> [] /\
     pem_Decode (enc block ++ after)
     = Some (block, pred (length (enc block)))) ->
  (forall block,
     In block blocks -> Block_Type block = "CERTIFICATE" ->
     exists cert, x509_ParseCertificate (Block_Bytes block) = Ok cert) ->
  readChain_loop pem_Decode (concat (map enc blocks) ++ rest) certs
  = readChain_loop pem_Decode rest
      (certs ++
       omap (fun block =>
               if String.eqb (Block_Type block) "CERTIFICATE"
               then match x509_ParseCertificate (Block_Bytes block) with
                    | Ok cert => Some cert
                    | Fail _ => None
                    end
               else None) blocks).
Proof.
  revert certs. induction blocks as [|block blocks IH]; intros certs Hdec Hcert.
  - cbn. rewrite app_nil_r. reflexivity.
  - cbn [map concat].
    destruct (Hdec block (concat (map enc blocks) ++ rest)%list)
      as [Hne Hblock];
      [left; reflexivity|].
    rewrite <- app_assoc. rewrite readChain_loop_turn.
    destruct (enc block) as [|b tl] eqn:Henc; [contradiction|].
    cbn [app]. cbn [app length pred] in Hblock. rewrite Hblock.
    rewrite drop_app_length.
    assert (Hdec' : forall blk after,
              In blk blocks ->
              enc blk <> [] /\
              pem_Decode (enc blk ++ after)
              = Some (blk, pred (length (enc blk))))
      by (intros blk after Hin; apply Hdec; right; exact Hin).
    assert (Hcert' : forall blk,
              In blk blocks -> Block_Type blk = "CERTIFICATE" ->
              exists cert, x509_ParseCertificate (Block_Bytes blk) = Ok cert)
      by (intros blk Hin; apply Hcert; right; exact Hin).
    cbn [omap list_omap].
    destruct (String.eqb_spec (Block_Type block) "CERTIFICATE") as [Htype|_].
    + destruct (Hcert block (or_introl eq_refl) Htype) as (cert & ->).
      rewrite (IH _ Hdec' Hcert'). rewrite <- app_assoc. reflexivity.
    + apply (IH _ Hdec' Hcert').
Qed.

(** X16. [readChain] returns, in the order of the input and without error,
    the certificates of the PEM blocks of type CERTIFICATE, and skips the
    blocks of any other type; an empty input gives the empty chain. *)
Theorem readChain_certificates_in_order (blocks : list pem_Block) :
  (forall block after,
     In block blocks ->
     enc block <> [] /\
     pem_Decode (enc block ++ after)
     = Some (block, pred (length (enc block)))) ->
  (forall block,
     In block blocks -> Block_Type block = "CERTIFICATE" ->
     exists cert, x509_ParseCertificate (Block_Bytes block) = Ok cert) ->
  readChain pem_Decode (mkReader (concat (map enc blocks)) None)
  = (omap (fun block =>
             if String.eqb (Block_Type block) "CERTIFICATE"
             then match x509_ParseCertificate (Block_Bytes block) with
                  | Ok cert => Some cert
                  | Fail _ => None
                  end
             else None) blocks,
     None).
Proof.
  intros Hdec Hcert. unfold readChain, io_ReadAll. cbn [content readErr elements].
  rewrite <- (app_nil_r (concat (map enc blocks))).
  rewrite (readChain_loop_blocks blocks [] [] Hdec Hcert).
  rewrite readChain_loop_turn. reflexivity.
Qed.

(** X17. [readChain] returns no certificate at all when it fails: with the
    error of the reading when the input cannot be read; with
    "invalid PEM" when, after any number of blocks, something is left that
    is not a PEM block; and with the decoder's own error, not wrapped,
    at the first block of type CERTIFICATE that does not decode, whatever
    follows it. *)
Theorem readChain_failures (blocks : list pem_Block) :
  (forall block after,
     In block blocks ->
     enc block <> [] /\
     pem_Decode (enc block ++ after)
     = Some (block, pred (length (enc block)))) ->
  (forall block,
     In block blocks -> Block_Type block = "CERTIFICATE" ->
     exists cert, x509_ParseCertificate (Block_Bytes block) = Ok cert) ->
  (forall input err,
     readErr input = Some err ->
     readChain pem_Decode input = ([], Some err)) /\
  (forall junk,
     junk <> [] -> pem_Decode junk = None ->
     readChain pem_Decode (mkReader (concat (map enc blocks) ++ junk) None)
     = ([], Some (errorString "invalid PEM"))) /\
  (forall bad after err,
     enc bad <> [] ->
     pem_Decode (enc bad ++ after) = Some (bad, pred (length (enc bad))) ->
     Block_Type bad = "CERTIFICATE" ->
     x509_ParseCertificate (Block_Bytes bad) = Fail err ->
     readChain pem_Decode
       (mkReader (concat (map enc blocks) ++ enc bad ++ after) None)
     = ([], Some err)).
Proof.
  intros Hdec Hcert. split; [|split].
  - intros input err Herr. unfold readChain, io_ReadAll. rewrite Herr.
    reflexivity.
  - intros junk Hjunk Hnone. unfold readChain, io_ReadAll.
    cbn [content readErr elements].
    rewrite (readChain_loop_blocks blocks junk [] Hdec Hcert).
    rewrite readChain_loop_turn. destruct junk; [contradiction|].
    rewrite Hnone. reflexivity.
  - intros bad after err Hne Hbad Htype Hfail. unfold readChain, io_ReadAll.
    cbn [content readErr elements].
    rewrite (readChain_loop_blocks blocks _ [] Hdec Hcert).
    rewrite readChain_loop_turn.
    destruct (enc bad) as [|b tl]; [contradiction|].
    cbn [app]. cbn [app] in Hbad. rewrite Hbad, Htype, Hfail. reflexivity.
Qed.

End Chain.

(** Witness of X16: a certificate, a CRL and a certificate. *)
Lemma readChain_certificates_in_order_witness :
  @readChain (Fixture.collaborators Fixture.leaf Fixture.good
                (Fixture.responder Fixture.ok200))
     Sample.decode (mkReader [Byte.x2d; Byte.x23; Byte.x2d] None)
  = ([Fixture.leaf; Fixture.leaf], None).
Proof.
  apply (@readChain_certificates_in_order
           (Fixture.collaborators Fixture.leaf Fixture.good
              (Fixture.responder Fixture.ok200))
           Sample.decode Sample.encode
           [mkBlock "CERTIFICATE" ∅ (Some [Byte.x30; Byte.x82]);
            mkBlock "X509 CRL" ∅ (Some [Byte.x30]);
            mkBlock "CERTIFICATE" ∅ (Some [Byte.x30; Byte.x82])]).
  - intros block after [<- | [<- | [<- | []]]]; (split; [discriminate | reflexivity]).
  - intros block _ _. exists Fixture.leaf. reflexivity.
Defined.

(** Witness of X17: a certificate followed by a line feed. *)
Lemma readChain_failures_witness :
  @readChain (Fixture.collaborators Fixture.leaf Fixture.good
                (Fixture.responder Fixture.ok200))
     Sample.decode (mkReader [Byte.x2d; Byte.x0a] None)
  = ([], Some (errorString "invalid PEM")).
Proof.
  destruct (@readChain_failures
              (Fixture.collaborators Fixture.leaf Fixture.good
                 (Fixture.responder Fixture.ok200))
              Sample.decode Sample.encode
              [mkBlock "CERTIFICATE" ∅ (Some [Byte.x30; Byte.x82])])
    as (_ & Hjunk & _).
  - intros block after [<- | []]. split; [discriminate | reflexivity].
  - intros block _ _. exists Fixture.leaf. reflexivity.
  - apply (Hjunk [Byte.x0a]); [discriminate | reflexivity].
Defined.

(** ** The command *)

Section Command.

Context `{Collaborators}.
Variable pem_Decode : list Byte.byte -> option (pem_Block * nat).
Variable Duration_String : Z -> string.

(** An [Evaluation] without error has its three fields set, when the
    codec returns non-nil bytes with no error. *)
Lemma Evaluate_ok_fields (ctx : Context)
    (certData issuerSubject issuerPubkey : bytes) (config : option Config)
    (w w' : World) (eval : Evaluation) :
  (forall cert issuerCert requestBytes,
     ocsp_CreateRequest cert issuerCert = (requestBytes, None) ->
     requestBytes <> None) ->
  Evaluate ctx certData issuerSubject issuerPubkey config w = Returns eval w' ->
  Err eval = None ->
  ResponderURL eval <> None /\
  RequestBytes eval <> None /\
  ResponseBytes eval <> None.
Proof.
  intros Hcodec Hrun Herr.
  destruct (Evaluate_cases ctx certData issuerSubject issuerPubkey config w)
    as (eval' & w1 & Hrun' & Hcases).
  rewrite Hrun' in Hrun. injection Hrun as -> ->.
  destruct Hcases as [(c & i & e & _ & -> & _) | (c & i & _ & Hcases)];
    [discriminate|].
  destruct Hcases as [(u & rb & e & _ & -> & _) | (u & rb & Hreq & Hcases)];
    [discriminate|].
  destruct Hcases as [(body & e & _ & ->) | (body & Hquery & Hcases)];
    [discriminate|].
  destruct Hcases as [(r & t & e & _ & ->) | (r & t & _ & ->)];
    [discriminate|].
  cbn [ResponderURL RequestBytes ResponseBytes].
  split; [discriminate|]. split.
  - apply (Hcodec c i), (CreateRequest_ok_bytes _ _ _ _ Hreq).
  - apply (Query_ok_body _ _ _ _ _ _ _ Hquery).
Qed.

(** X18. [main] ends without panic on every input. It ends by [log.Fatalf],
    before anything is sent, when the chain cannot be read or holds fewer
    than two certificates. Otherwise it evaluates, under a context
    without deadline and with the default configuration, the raw bytes
    of the first certificate against the subject and the public key of
    the second, and encodes the fields of that evaluation; certificates
    after the second are not looked at. *)
Theorem main_needs_two_certificates (stdin : Reader) (w : World) :
  (forall chain err,
     readChain pem_Decode stdin = (chain, Some err) ->
     main pem_Decode Duration_String stdin w
     = Returns
         (Fatal ("Error reading certificate chain from stdin: "
                 +:+ Error err)) w) /\
  (forall chain,
     readChain pem_Decode stdin = (chain, None) ->
     (length chain < 2)%nat ->
     main pem_Decode Duration_String stdin w
     = Returns (Fatal "Fewer than 2 certificates provided on stdin") w) /\
  (forall chain0 chain1 more,
     readChain pem_Decode stdin = (chain0 :: chain1 :: more, None) ->
     exists eval w',
       Evaluate (mkContext None) (Raw chain0) (RawSubject chain1)
         (RawSubjectPublicKeyInfo chain1) None w
       = Returns eval w' /\
       main pem_Decode Duration_String stdin w
       = Returns
           (Encoded
              (mkOutput (ResponderURL eval) (RequestBytes eval)
                 (ResponseBytes eval) (Duration_String (ResponseTime eval))
                 (errString (Err eval)))) w').
Proof.
  unfold main. split; [|split].
  - intros chain err ->. reflexivity.
  - intros chain -> Hshort.
    destruct (Nat.ltb_spec (length chain) 2); [reflexivity | lia].
  - intros chain0 chain1 more ->. cbn [length Nat.ltb Nat.leb].
    unfold bind at 1 2. unfold index. cbn [lookup list_lookup]. unfold ret at 1 2.
    unfold bind.
    destruct (Evaluate_cases (mkContext None) (Raw chain0) (RawSubject chain1)
                (RawSubjectPublicKeyInfo chain1) None w)
      as (eval & w' & Hrun & _).
    exists eval, w'. split; [exact Hrun|]. rewrite Hrun. reflexivity.
Qed.

(** X19. In what [main] encodes, a null "error" goes with non-null
    "responder_url", "request_bytes" and "response_bytes" (when the codec
    returns non-nil bytes with no error), and an "error" that is not null
    is the text of the error [Evaluate] recorded. *)
Theorem main_output_fields (stdin : Reader) (w w' : World) (output : Output) :
  (forall cert issuerCert requestBytes,
     ocsp_CreateRequest cert issuerCert = (requestBytes, None) ->
     requestBytes <> None) ->
  main pem_Decode Duration_String stdin w = Returns (Encoded output) w' ->
  (error_text output = None ->
   responder_url output <> None /\
   request_bytes output <> None /\
   response_bytes output <> None) /\
  (forall text,
     error_text output = Some text ->
     exists chain0 chain1 more eval err,
       readChain pem_Decode stdin = (chain0 :: chain1 :: more, None) /\
       Evaluate (mkContext None) (Raw chain0) (RawSubject chain1)
         (RawSubjectPublicKeyInfo chain1) None w
       = Returns eval w' /\
       Err eval = Some err /\ text = Error err).
Proof.
  intros Hcodec Hmain. unfold main in Hmain.
  destruct (readChain pem_Decode stdin) as [chain [err|]] eqn:Hchain;
    [discriminate|].
  destruct (Nat.ltb_spec (length chain) 2) as [|Hlong]; [discriminate|].
  destruct chain as [|chain0 [|chain1 more]]; cbn [length] in Hlong; try lia.
  unfold bind at 1 2 in Hmain. unfold index in Hmain.
  cbn [lookup list_lookup] in Hmain. unfold ret at 1 2 in Hmain.
  unfold bind in Hmain.
  destruct (Evaluate (mkContext None) (Raw chain0) (RawSubject chain1)
              (RawSubjectPublicKeyInfo chain1) None w)
    as [eval w1|] eqn:Hrun; [|discriminate].
  injection Hmain as <- <-. cbn [error_text responder_url request_bytes
                                 response_bytes].
  split.
  - intros Herr. apply (Evaluate_ok_fields _ _ _ _ _ _ _ _ Hcodec Hrun).
    destruct (Err eval); [discriminate | reflexivity].
  - intros text Htext. exists chain0, chain1, more, eval.
    destruct (Err eval) as [err|] eqn:Herr; [|discriminate].
    exists err. injection Htext as <-. auto.
Qed.

End Command.

(** Witness of X18: one certificate on the standard input. *)
Lemma main_needs_two_certificates_witness :
  @main (Fixture.collaborators Fixture.leaf Fixture.good
           (Fixture.responder Fixture.ok200))
     Sample.decode Sample.seconds (mkReader [Byte.x23; Byte.x2d] None)
     Fixture.start
  = Returns (Fatal "Fewer than 2 certificates provided on stdin") Fixture.start.
Proof.
  apply (proj1 (proj2 (@main_needs_two_certificates
                  (Fixture.collaborators Fixture.leaf Fixture.good
                     (Fixture.responder Fixture.ok200))
                  Sample.decode Sample.seconds
                  (mkReader [Byte.x23; Byte.x2d] None) Fixture.start))
           [Fixture.leaf]).
  - vm_compute. reflexivity.
  - cbn. lia.
Defined.

(** Witness of X19: two certificates and a good response. *)
Lemma main_output_fields_witness :
  exists output w',
    @main (Fixture.collaborators Fixture.leaf Fixture.good
             (Fixture.responder Fixture.ok200))
       Sample.decode Sample.seconds (mkReader [Byte.x2d; Byte.x2d] None)
       Fixture.start
    = Returns (Encoded output) w' /\
    error_text output = None /\
    responder_url output <> None /\
    request_bytes output <> None /\
    response_bytes output <> None.
Proof.
  assert (Hmain :
    @main (Fixture.collaborators Fixture.leaf Fixture.good
             (Fixture.responder Fixture.ok200))
       Sample.decode Sample.seconds (mkReader [Byte.x2d; Byte.x2d] None)
       Fixture.start
    = Returns
        (Encoded
           (mkOutput (Some "http://ocsp.example.com")
              (Some [Byte.x30; Byte.x00]) (Some [Byte.x30; Byte.x03])
              "120ms" None))
        (mkWorld 120001000
           [mkRequest "POST" "http://ocsp.example.com"
              (<["Idempotency-Key" := []]>
                 (<["Content-Type" := ["application/ocsp-request"]]> ∅))
              (Some [Byte.x30; Byte.x00]) (mkContext (Some 10000001000))]))
    by (vm_compute; reflexivity).
  assert (Hcodec : forall (c i : Certificate) (rb : bytes),
            @ocsp_CreateRequest
              (Fixture.collaborators Fixture.leaf Fixture.good
                 (Fixture.responder Fixture.ok200)) c i = (rb, None) ->
            rb <> None)
    by (intros c i rb [= <-]; discriminate).
  eexists _, _. split; [exact Hmain|]. split; [reflexivity|].
  apply (proj1 (@main_output_fields
                  (Fixture.collaborators Fixture.leaf Fixture.good
                     (Fixture.responder Fixture.ok200))
                  Sample.decode Sample.seconds _ _ _ _ Hcodec Hmain)).
  reflexivity.
Defined.

(** ** Where a revoked verdict comes from *)

Section Revoked.

Context `{Collaborators}.

(** What a [Query] without error has seen. *)
Lemma Query_ok_inv (ctx : Context) (serverURL : string) (requestBytes : bytes)
    (httpClient : Client) (w w' : World) (body : bytes) :
  Query ctx serverURL requestBytes httpClient w = Returns (body, None) w' ->
  exists rq httpResponse,
    sent w' = rq :: sent w /\
    URL rq = serverURL /\
    snd (httpClient (clock w) rq) = Ok httpResponse /\
    StatusCode httpResponse = 200 /\
    Header_Get (Response_Header httpResponse) "Content-Type"
    = "application/ocsp-response" /\
    body = Some (content (Response_Body httpResponse)).
Proof.
  rewrite Query_run. destruct (url_Parse serverURL); [discriminate|].
  cbv zeta.
  match goal with |- context [httpClient (clock w) ?r] => set (rq := r) end.
  destruct (snd (httpClient (clock w) rq)) as [httpResponse | err] eqn:Hanswer;
    [|discriminate].
  destruct (readErr (Response_Body httpResponse)); [discriminate|].
  destruct (Z.eqb_spec (StatusCode httpResponse) 200) as [Hcode|];
    [|discriminate].
  destruct (String.eqb_spec
              (Header_Get (Response_Header httpResponse) "Content-Type")
              "application/ocsp-response") as [Htype|]; [|discriminate].
  cbn [negb]. intros [= <- <-]. exists rq, httpResponse. auto 10.
Qed.

(** X20. [CheckCert] says revoked only on the strength of a response: if it
    returns [revoked = true] then it returns no error, exactly one request
    was sent, to the responder [getOCSPServer] selects, the client
    answered it with status 200 and the OCSP media type, the codec
    accepted the body of that answer for this certificate and issuer with
    the status revoked, and the time returned is the codec's
    [RevokedAt]. *)
Theorem CheckCert_revoked_from_response (ctx : Context)
    (cert issuerCert : Certificate) (httpClient : Client) (w w' : World)
    (revocationTime : Z) (err : option error) :
  CheckCert ctx cert issuerCert httpClient w
  = Returns (true, revocationTime, err) w' ->
  err = None /\
  exists rq httpResponse response,
    sent w' = rq :: sent w /\
    URL rq = getOCSPServer cert /\
    snd (httpClient (clock w) rq) = Ok httpResponse /\
    StatusCode httpResponse = 200 /\
    Header_Get (Response_Header httpResponse) "Content-Type"
    = "application/ocsp-response" /\
    ocsp_ParseResponseForCert (Some (content (Response_Body httpResponse)))
      cert issuerCert
    = Ok response /\
    ocsp_Status response = ocsp_Revoked /\
    revocationTime = RevokedAt response.
Proof.
  unfold CheckCert.
  destruct (CreateRequest cert issuerCert) as [[serverURL requestBytes] [e|]]
    eqn:Hreq; [discriminate|].
  unfold bind.
  destruct (Query_returns ctx serverURL requestBytes httpClient w)
    as (body & qerr & w1 & Hquery).
  rewrite Hquery. destruct qerr as [e|]; [discriminate|].
  unfold ret. intros [= Hcheck <-].
  destruct (Query_ok_inv _ _ _ _ _ _ _ Hquery)
    as (rq & httpResponse & Hsent & Hurl & Hanswer & Hcode & Htype & ->).
  destruct (CreateRequest_ok_serverURL _ _ _ _ Hreq) as [-> _].
  destruct (CheckResponse_cases cert issuerCert
              (Some (content (Response_Body httpResponse))))
    as [(e & Hc) | [Hc | (response & Hparse & Hstatus & Hc)]];
    rewrite Hc in Hcheck; try discriminate.
  injection Hcheck as <- <-. split; [reflexivity|].
  exists rq, httpResponse, response. auto 10.
Qed.

End Revoked.

(** Witness of X20: a response the codec reads as revoked at 1700000000. *)
Lemma CheckCert_revoked_from_response_witness :
  exists rq httpResponse response,
    URL rq = "http://ocsp.example.com" /\
    StatusCode httpResponse = 200 /\
    ocsp_Status response = ocsp_Revoked /\
    1700000000 = RevokedAt response.
Proof.
  destruct (@CheckCert_revoked_from_response
              (Fixture.collaborators Fixture.leaf
                 (Fixture.revokedAt 1700000000)
                 (Fixture.responder Fixture.ok200))
              Fixture.background Fixture.leaf Fixture.issuer
              (Fixture.responder Fixture.ok200) Fixture.start
              (mkWorld 120001000
                 [mkRequest "POST" "http://ocsp.example.com"
                    (<["Idempotency-Key" := []]>
                       (<["Content-Type" := ["application/ocsp-request"]]> ∅))
                    (Fixture.der [Byte.x30; Byte.x00])
                    (mkContext (Some 10000001000))])
              1700000000 None)
    as (_ & rq & httpResponse & response & _ & Hurl & _ & Hcode & _ & _
        & Hstatus & Htime).
  - vm_compute. reflexivity.
  - exists rq, httpResponse, response. auto.
Defined.

(** Witness of X11: a certificate whose only responder is [https]. *)
Lemma CheckRawCert_first_error_witness :
  exists res w',
    @CheckRawCert (Fixture.collaborators Fixture.httpsOnly Fixture.good
                     (Fixture.responder Fixture.ok200))
       Fixture.background (Fixture.der [Byte.x30; Byte.x82])
       (Fixture.der [Byte.x30; Byte.x0b]) (Fixture.der [Byte.x30; Byte.x59])
       (Fixture.responder Fixture.ok200) Fixture.start
    = Returns res w' /\
    res = (false, zeroTime, Some ErrNoResponder) /\
    w' = Fixture.start.
Proof.
  destruct (@CheckRawCert_first_error
              (Fixture.collaborators Fixture.httpsOnly Fixture.good
                 (Fixture.responder Fixture.ok200))
              Fixture.background (Fixture.der [Byte.x30; Byte.x82])
              (Fixture.der [Byte.x30; Byte.x0b])
              (Fixture.der [Byte.x30; Byte.x59])
              (Fixture.responder Fixture.ok200) Fixture.start)
    as (res & w' & Hrun & _ & Hstages).
  exists res, w'. split; [exact Hrun|].
  apply (proj1 (Hstages Fixture.httpsOnly
                  (mkCertificate None (Fixture.der [Byte.x30; Byte.x0b])
                     (Fixture.der [Byte.x30; Byte.x59])
                     (Some (DecodedKey [Byte.x04])) [] [] [])
                  eq_refl) "" None ErrNoResponder).
  reflexivity.
Defined.
